(** * libbcc: the Script error slot and status, and the LinkerConfig glue

    A shallow embedding of [lib/bcc/Script.h] and
    [lib/Support/LinkerConfig.cpp], and the properties of the two classes
    that follow from their code.  The state machine of a script, whose
    operations [Script.h] only declares, is modelled from the
    specification, in the module [ScriptCore].

    Part I holds the definitions, Part II the theorems. *)

From Stdlib Require Import ZArith NArith Ascii String List Lia.
From stdpp Require Import base option list strings gmap.
Import ListNotations.

Local Open Scope Z_scope.

(* ===================================================================== *)
(** * Part I: definitions                                                 *)
(* ===================================================================== *)

(** ** [bcc/bcc.h]: what [Script.h] uses of it

    [BCCenum] is an integer type.  [Script.h] uses [BCC_NO_ERROR] by name
    only, so its value is left open here. *)

Definition BCCenum : Type := Z.

Class BccHeader : Type := { BCC_NO_ERROR : BCCenum }.

(** A raw pointer, by its address; [NULL] is address 0. *)
Definition pointer : Type := Z.

Module ScriptStatus.

(** [enum StatusType { Unknown, Compiled, //Cached, }]: the third
    enumerator is commented out in the source, so the type has two values. *)
Inductive StatusType : Type :=
| Unknown
| Compiled.

#[global] Instance StatusType_eq_dec : EqDecision StatusType.
Proof. solve_decision. Defined.

End ScriptStatus.

Module Script.

Import ScriptStatus.

(** [class Script]'s data members.  The anonymous union of [mCompiled] and
    [mCached] is one pointer-sized cell, read under either name. *)
Record Script : Type := mkScript {
  mErrorCode : BCCenum;
  mStatus : StatusType;
  mUnion : pointer;
  mpExtSymbolLookupFn : pointer;
  mpExtSymbolLookupFnContext : pointer
}.

Definition mCompiled (s : Script) : pointer := mUnion s.
Definition mCached (s : Script) : pointer := mUnion s.

Definition set_mErrorCode (e : BCCenum) (s : Script) : Script :=
  mkScript e (mStatus s) (mUnion s)
           (mpExtSymbolLookupFn s) (mpExtSymbolLookupFnContext s).

(** What the constructor leaves uninitialised: the union cell and the two
    members of the symbol-lookup hook hold whatever the storage held. *)
Record Indeterminate : Type := mkIndeterminate {
  ind_union : pointer;
  ind_fn : pointer;
  ind_context : pointer
}.

Section WithBccHeader.
Context `{BccHeader}.

(** [Script() : mErrorCode(BCC_NO_ERROR), mStatus(ScriptStatus::Unknown) {}] *)
Definition Script_ctor (junk : Indeterminate) : Script :=
  mkScript BCC_NO_ERROR Unknown
           (ind_union junk) (ind_fn junk) (ind_context junk).

(** [void setError(BCCenum error)] *)
Definition setError (error : BCCenum) (s : Script) : Script :=
  if (mErrorCode s =? BCC_NO_ERROR) && negb (error =? BCC_NO_ERROR)
  then set_mErrorCode error s
  else s.

(** [BCCenum getError()]: the result, and the object after the call. *)
Definition getError (s : Script) : BCCenum * Script :=
  let result := mErrorCode s in
  (result, set_mErrorCode BCC_NO_ERROR s).

End WithBccHeader.

(** A sample header and object for the worked examples. *)
Definition sample_header : BccHeader := {| BCC_NO_ERROR := 0 |}.

Definition sample_junk : Indeterminate := mkIndeterminate 3735928559 0 64.

End Script.

(** ** MCLinker ([mcld]) and LLVM, as [LinkerConfig.cpp] uses them

    MCLinker is a library of its own.  Its containers and option objects
    are modelled by what the calls made here store in them; what it
    computes on its own (the target registry, its constructors, the file
    system tests) is the interface [McldLibrary] below. *)

Definition NULL : pointer := 0.

Module mcld.

(** [mcld::sys::fs::Path], by its native string. *)
Definition Path : Type := string.

Module ZOption.

(** [mcld::ZOption::Kind] *)
Inductive Kind : Type :=
| CombReloc | NoCombReloc | Defs | ExecStack | NoExecStack | InitFirst
| InterPose | LoadFltr | MulDefs | NoCopyReloc | NoDefaultLib | NoDelete
| NoDLOpen | NoDump | Relro | NoRelro | Lazy | Now | Origin | Unknown.

#[global] Instance Kind_eq_dec : EqDecision Kind.
Proof. solve_decision. Defined.

(** [mcld::ZOption]: a kind and a page size. *)
Record t : Type := mk { kind : Kind; pageSize : Z }.

#[global] Instance t_eq_dec : EqDecision t.
Proof. solve_decision. Defined.

(** [void setKind(Kind pKind)] *)
Definition setKind (pKind : Kind) (o : t) : t := mk pKind (pageSize o).

End ZOption.

(** [mcld::MCLDDirectory]: [name()], [path()] and [isInSysroot()]. *)
Record MCLDDirectory : Type := mkMCLDDirectory {
  name : string;
  path : Path;
  isInSysroot : bool
}.

(** [mcld::GeneralOptions], by what the setters called here store.
    [zOptions] is the sequence of options handed to [addZOption], and
    [directories] the search directories in the order of [add]. *)
Record GeneralOptions : Type := mkGeneralOptions {
  bsymbolic : bool;
  dyld : string;
  sysroot : Path;
  zOptions : list ZOption.t;
  directories : list MCLDDirectory
}.

(** [mcld::ScriptOptions]: the rename table, a string-keyed hash table
    whose entries hold a string. *)
Record ScriptOptions : Type := mkScriptOptions {
  renameMap : gmap string string
}.

(** [mcld::MCLDInfo]: [options()] and [scripts()]. *)
Record MCLDInfo : Type := mkMCLDInfo {
  options : GeneralOptions;
  scripts : ScriptOptions
}.

(** [mcld::TextDiagnosticPrinter]: [getNumErrors()] reads an unsigned
    counter of the errors the printer has handled. *)
Record TextDiagnosticPrinter : Type := mkTextDiagnosticPrinter {
  getNumErrors : N
}.

(** The diagnostics [LinkerConfig.cpp] raises. *)
Inductive DiagID : Type :=
| rewrap
| warn_cannot_open_search_dir.

#[global] Instance DiagID_eq_dec : EqDecision DiagID.
Proof. solve_decision. Defined.

Definition setBsymbolic (b : bool) (o : GeneralOptions) : GeneralOptions :=
  mkGeneralOptions b (dyld o) (sysroot o) (zOptions o) (directories o).

Definition setDyld (d : string) (o : GeneralOptions) : GeneralOptions :=
  mkGeneralOptions (bsymbolic o) d (sysroot o) (zOptions o) (directories o).

Definition setSysroot (p : Path) (o : GeneralOptions) : GeneralOptions :=
  mkGeneralOptions (bsymbolic o) (dyld o) p (zOptions o) (directories o).

Definition addZOption (z : ZOption.t) (o : GeneralOptions) : GeneralOptions :=
  mkGeneralOptions (bsymbolic o) (dyld o) (sysroot o)
                   (zOptions o ++ [z]) (directories o).

Definition directories_add (d : MCLDDirectory) (o : GeneralOptions)
  : GeneralOptions :=
  mkGeneralOptions (bsymbolic o) (dyld o) (sysroot o)
                   (zOptions o) (directories o ++ [d]).

Definition with_options (f : GeneralOptions -> GeneralOptions)
    (i : MCLDInfo) : MCLDInfo :=
  mkMCLDInfo (f (options i)) (scripts i).

Definition with_renameMap (f : gmap string string -> gmap string string)
    (i : MCLDInfo) : MCLDInfo :=
  mkMCLDInfo (options i) (mkScriptOptions (f (renameMap (scripts i)))).

End mcld.

(** What MCLinker and the file system decide on their own. *)
Class McldLibrary : Type := {
  (** [mcld::TargetRegistry::lookupTarget(triple, error)]: the target
      (NULL when there is none) and the error text it leaves. *)
  lookupTarget : string -> pointer * string;
  (** [createDiagnosticLineInfo], called through the target. *)
  createDiagnosticLineInfo : pointer -> string -> pointer;
  (** [new mcld::MCLDInfo(triple, 1, 32)] *)
  MCLDInfo_ctor : string -> Z -> Z -> mcld.MCLDInfo;
  (** [new mcld::TextDiagnosticPrinter(mcld::errs(), info)] *)
  TextDiagnosticPrinter_ctor : mcld.MCLDInfo -> mcld.TextDiagnosticPrinter;
  (** [mcld::ZOption option;] *)
  ZOption_ctor : mcld.ZOption.t;
  (** [new mcld::MCLDDirectory(pDirPath)] *)
  MCLDDirectory_ctor : string -> mcld.MCLDDirectory;
  (** [sd->setSysroot(sysroot)] *)
  MCLDDirectory_setSysroot :
    mcld.Path -> mcld.MCLDDirectory -> mcld.MCLDDirectory;
  (** [exists(path)] and [is_directory(path)] *)
  fs_exists : mcld.Path -> bool;
  fs_is_directory : mcld.Path -> bool
}.

(** ** [bcc/Support/LinkerConfig.h]: the [-z] option bits

    [setZOption] uses the masks by name only, so their values are left
    open here. *)
Class ZOptionEnum : Type := {
  kCombReloc : Z; kDefs : Z; kExecStack : Z; kInitFirst : Z;
  kInterPose : Z; kLoadFltr : Z; kMulDefs : Z; kNoCopyReloc : Z;
  kNoDefaultLib : Z; kNoDelete : Z; kNoDLOpen : Z; kNoDump : Z;
  kRelro : Z; kLazy : Z; kOrigin : Z
}.

(** ** [lib/Support/LinkerConfig.cpp] *)

Module LinkerConfig.

Import mcld.

(** [class LinkerConfig]'s data members.  [mLDInfo] and [mDiagPrinter]
    own objects whose contents matter here: [None] is the null pointer.
    [mTarget] and [mDiagLineInfo] point to objects this file never looks
    into, and are kept as addresses. *)
Record LinkerConfig : Type := mkLinkerConfig {
  mTriple : string;
  mShared : bool;
  mSOName : string;
  mTarget : pointer;
  mLDInfo : option MCLDInfo;
  mDiagLineInfo : pointer;
  mDiagPrinter : option TextDiagnosticPrinter
}.

Definition set_mShared (b : bool) (c : LinkerConfig) : LinkerConfig :=
  mkLinkerConfig (mTriple c) b (mSOName c) (mTarget c) (mLDInfo c)
                 (mDiagLineInfo c) (mDiagPrinter c).

Definition set_mSOName (s : string) (c : LinkerConfig) : LinkerConfig :=
  mkLinkerConfig (mTriple c) (mShared c) s (mTarget c) (mLDInfo c)
                 (mDiagLineInfo c) (mDiagPrinter c).

Definition set_mTarget (p : pointer) (c : LinkerConfig) : LinkerConfig :=
  mkLinkerConfig (mTriple c) (mShared c) (mSOName c) p (mLDInfo c)
                 (mDiagLineInfo c) (mDiagPrinter c).

Definition set_mLDInfo (i : option MCLDInfo) (c : LinkerConfig)
  : LinkerConfig :=
  mkLinkerConfig (mTriple c) (mShared c) (mSOName c) (mTarget c) i
                 (mDiagLineInfo c) (mDiagPrinter c).

Definition set_mDiagLineInfo (p : pointer) (c : LinkerConfig)
  : LinkerConfig :=
  mkLinkerConfig (mTriple c) (mShared c) (mSOName c) (mTarget c) (mLDInfo c)
                 p (mDiagPrinter c).

Definition set_mDiagPrinter (p : option TextDiagnosticPrinter)
    (c : LinkerConfig) : LinkerConfig :=
  mkLinkerConfig (mTriple c) (mShared c) (mSOName c) (mTarget c) (mLDInfo c)
                 (mDiagLineInfo c) p.

(** The objects the destructor deletes. *)
Inductive Member : Type :=
| LDInfo
| DiagLineInfo
| DiagPrinter.

#[global] Instance Member_eq_dec : EqDecision Member.
Proof. solve_decision. Defined.

(** What a method does to the world outside the object, in order. *)
Inductive Effect : Type :=
| ALOGE (msg : string)
  (** an error line in the Android log *)
| Warning (id : DiagID) (args : list string)
  (** [mcld::warning(id) << arg << ...] *)
| InitializeDiagnosticEngine
  (** [mcld::InitializeDiagnosticEngine(...)] *)
| RunInterruptHandlers
  (** [llvm::sys::RunInterruptHandlers()] *)
| Finish
  (** [mDiagPrinter->finish()] *)
| Delete (m : Member)
  (** [delete] of a member that is not null *).

#[global] Instance Effect_eq_dec : EqDecision Effect.
Proof. solve_decision. Defined.

(** The object a method runs on and the effects so far. *)
Record State : Type := mkState {
  this : LinkerConfig;
  trace : list Effect
}.

(** A method: from a state to its result and the state after, or [None]
    when it dereferences a null pointer. *)
Definition M (A : Type) : Type := State -> option (A * State).

#[global] Instance M_ret : MRet M := fun A a st => Some (a, st).

#[global] Instance M_bind : MBind M := fun A B f m st =>
  match m st with
  | Some (a, st') => f a st'
  | None => None
  end.

Definition getThis : M LinkerConfig := fun st => Some (this st, st).

Definition modifyThis (f : LinkerConfig -> LinkerConfig) : M unit :=
  fun st => Some (tt, mkState (f (this st)) (trace st)).

Definition emit (e : Effect) : M unit :=
  fun st => Some (tt, mkState (this st) (trace st ++ [e])).

Definition fault {A : Type} : M A := fun _ => None.

Definition skip : M unit := mret tt.

(** [*p] and [p->] for an owning pointer. *)
Definition deref {A : Type} (p : option A) : M A :=
  match p with
  | Some a => mret a
  | None => fault
  end.

(** [mLDInfo->...]: read, and update in place. *)
Definition ldInfo : M MCLDInfo := c ← getThis; deref (mLDInfo c).

Definition modifyLDInfo (f : MCLDInfo -> MCLDInfo) : M unit :=
  i ← ldInfo; modifyThis (set_mLDInfo (Some (f i))).

(** [s.c_str()] under [%s]: the characters before the first NUL. *)
Fixpoint c_str (s : string) : string :=
  match s with
  | EmptyString => EmptyString
  | String c s' =>
      if Ascii.eqb c "000"%char then EmptyString else String c (c_str s')
  end.

Definition newline : string := String "010"%char EmptyString.

(** [delete p] for an owning pointer and for a plain one. *)
Definition delete_owned {A : Type} (m : Member) (p : option A) : M unit :=
  if p is Some _ then emit (Delete m) else skip.

Definition delete_ptr (m : Member) (p : pointer) : M unit :=
  if p =? NULL then skip else emit (Delete m).

(** [getTriple()], the accessor of [mTriple] that [LinkerConfig.h]
    declares. *)
Definition getTriple (c : LinkerConfig) : string := mTriple c.

Section WithMcld.
Context `{McldLibrary}.

(** [bool LinkerConfig::initializeTarget()] *)
Definition initializeTarget : M bool :=
  c ← getThis;
  let '(target, error) := lookupTarget (mTriple c) in
  modifyThis (set_mTarget target);;
  if negb (NULL =? target) then mret true
  else
    emit (ALOGE ("Cannot initialize mcld::Target for given triple '"
                 +:+ c_str (mTriple c) +:+ "'! (" +:+ c_str error +:+ ")"
                 +:+ newline));;
    mret false.

(** [bool LinkerConfig::initializeLDInfo()] *)
Definition initializeLDInfo : M bool :=
  c ← getThis;
  if mLDInfo c is Some _ then
    emit (ALOGE ("Cannot initialize mcld::MCLDInfo for given triple '"
                 +:+ c_str (mTriple c) +:+ "!" +:+ newline));;
    mret false
  else
    modifyThis (set_mLDInfo (Some (MCLDInfo_ctor (getTriple c) 1 32)));;
    mret true.

(** [bool LinkerConfig::initializeDiagnostic()]; the call through
    [mTarget] needs a target. *)
Definition initializeDiagnostic : M bool :=
  c ← getThis;
  (if mTarget c =? NULL then fault else skip);;
  modifyThis (set_mDiagLineInfo
                (createDiagnosticLineInfo (mTarget c) (mTriple c)));;
  i ← ldInfo;
  modifyThis (set_mDiagPrinter (Some (TextDiagnosticPrinter_ctor i)));;
  emit InitializeDiagnosticEngine;;
  mret true.

(** The member initialisers of [LinkerConfig::LinkerConfig(pTriple)]. *)
Definition LinkerConfig_init (pTriple : string) : LinkerConfig :=
  mkLinkerConfig pTriple false EmptyString NULL None NULL None.

(** [LinkerConfig::LinkerConfig(const std::string &pTriple)]; the three
    results are dropped, as in the source. *)
Definition LinkerConfig_ctor (pTriple : string) (before : list Effect)
  : option (unit * State) :=
  (initializeTarget;; initializeLDInfo;; initializeDiagnostic;; skip)
    (mkState (LinkerConfig_init pTriple) before).

End WithMcld.

(** [LinkerConfig::~LinkerConfig()] *)
Definition LinkerConfig_dtor : M unit :=
  c ← getThis;
  delete_owned LDInfo (mLDInfo c);;
  printer ← deref (mDiagPrinter c);
  (if negb (getNumErrors printer =? 0)%N
   then emit RunInterruptHandlers else skip);;
  emit Finish;;
  delete_ptr DiagLineInfo (mDiagLineInfo c);;
  delete_owned DiagPrinter (mDiagPrinter c).

(** [void LinkerConfig::setShared(bool pEnable)] *)
Definition setShared (pEnable : bool) : M unit :=
  modifyThis (set_mShared pEnable).

(** [void LinkerConfig::setBsymbolic(bool pEnable)] *)
Definition setBsymbolic (pEnable : bool) : M unit :=
  modifyLDInfo (with_options (mcld.setBsymbolic pEnable)).

(** [void LinkerConfig::setSOName(const std::string &pSOName)] *)
Definition setSOName (pSOName : string) : M unit :=
  modifyThis (set_mSOName pSOName).

(** [void LinkerConfig::setDyld(const std::string &pDyld)] *)
Definition setDyld (pDyld : string) : M unit :=
  modifyLDInfo (with_options (mcld.setDyld pDyld)).

(** [void LinkerConfig::setSysRoot(const std::string &pSysRoot)] *)
Definition setSysRoot (pSysRoot : string) : M unit :=
  modifyLDInfo (with_options (mcld.setSysroot pSysRoot)).

(** [mLDInfo->options().addZOption(option)] *)
Definition addZOption (option : ZOption.t) : M unit :=
  modifyLDInfo (with_options (mcld.addZOption option)).

(** C truth of [pOptions & mask], for an [unsigned int] and a mask. *)
Definition has_bit (pOptions mask : Z) : bool :=
  negb (Z.land pOptions mask =? 0).

(** One [if (pOptions & mask) { setKind; addZOption } else { setKind;
    addZOption }] of [setZOption]; the local [option] is handed on. *)
Definition either_bit (pOptions mask : Z) (on off : ZOption.Kind)
    (option : ZOption.t) : M ZOption.t :=
  if has_bit pOptions mask then
    let option := ZOption.setKind on option in
    addZOption option;; mret option
  else
    let option := ZOption.setKind off option in
    addZOption option;; mret option.

(** One [if (pOptions & mask) { setKind; addZOption }] of [setZOption]. *)
Definition when_bit (pOptions mask : Z) (on : ZOption.Kind)
    (option : ZOption.t) : M ZOption.t :=
  if has_bit pOptions mask then
    let option := ZOption.setKind on option in
    addZOption option;; mret option
  else mret option.

Section WithHeaders.
Context `{McldLibrary} `{ZOptionEnum}.

(** [void LinkerConfig::setZOption(unsigned int pOptions)] *)
Definition setZOption (pOptions : Z) : M unit :=
  let option := ZOption_ctor in
  option ← either_bit pOptions kCombReloc
             ZOption.CombReloc ZOption.NoCombReloc option;
  option ← when_bit pOptions kDefs ZOption.Defs option;
  option ← either_bit pOptions kExecStack
             ZOption.ExecStack ZOption.NoExecStack option;
  option ← when_bit pOptions kInitFirst ZOption.InitFirst option;
  option ← when_bit pOptions kInterPose ZOption.InterPose option;
  option ← when_bit pOptions kLoadFltr ZOption.LoadFltr option;
  option ← when_bit pOptions kMulDefs ZOption.MulDefs option;
  option ← when_bit pOptions kNoCopyReloc ZOption.NoCopyReloc option;
  option ← when_bit pOptions kNoDefaultLib ZOption.NoDefaultLib option;
  option ← when_bit pOptions kNoDelete ZOption.NoDelete option;
  option ← when_bit pOptions kNoDLOpen ZOption.NoDLOpen option;
  option ← when_bit pOptions kNoDump ZOption.NoDump option;
  option ← either_bit pOptions kRelro
             ZOption.Relro ZOption.NoRelro option;
  option ← either_bit pOptions kLazy ZOption.Lazy ZOption.Now option;
  option ← when_bit pOptions kOrigin ZOption.Origin option;
  skip.

End WithHeaders.

(** [mLDInfo->scripts().renameMap().insert(pKey, exist)]: the entry of
    [pKey], made with an empty value when the table has none; the result
    is what the call leaves in [exist].  The entry is known by its key. *)
Definition renameMap_insert (pKey : string) : M bool :=
  i ← ldInfo;
  if renameMap (scripts i) !! pKey is Some _ then mret true
  else
    modifyLDInfo (with_renameMap (insert pKey EmptyString));;
    mret false.

(** [entry->setValue(pValue)] on the entry of [pKey]. *)
Definition entry_setValue (pKey pValue : string) : M unit :=
  modifyLDInfo (with_renameMap (insert pKey pValue)).

(** [mcld::warning(id) << arg << ...] *)
Definition warning (id : DiagID) (args : list string) : M unit :=
  emit (Warning id args).

(** [void LinkerConfig::addWrap(const std::string &pWrapSymbol)] *)
Definition addWrap (pWrapSymbol : string) : M unit :=
  exist ← renameMap_insert pWrapSymbol;
  let to_wrap_str := "__wrap_" +:+ pWrapSymbol in
  entry_setValue pWrapSymbol to_wrap_str;;
  (if exist : bool then warning rewrap [pWrapSymbol; to_wrap_str]
   else skip);;
  let from_real_str := "__real_" +:+ pWrapSymbol in
  exist ← renameMap_insert from_real_str;
  entry_setValue from_real_str pWrapSymbol;;
  (if exist : bool then warning rewrap [pWrapSymbol; from_real_str]
   else skip).

(** [void LinkerConfig::addPortable(const std::string &pPortableSymbol)] *)
Definition addPortable (pPortableSymbol : string) : M unit :=
  exist ← renameMap_insert pPortableSymbol;
  let to_port_str := pPortableSymbol +:+ "_portable" in
  entry_setValue pPortableSymbol to_port_str;;
  (if exist : bool then warning rewrap [pPortableSymbol; to_port_str]
   else skip);;
  let from_real_str := "__real_" +:+ pPortableSymbol in
  exist ← renameMap_insert from_real_str;
  entry_setValue from_real_str pPortableSymbol;;
  (if exist : bool then warning rewrap [pPortableSymbol; from_real_str]
   else skip).

Section WithFileSystem.
Context `{McldLibrary}.

(** The directory object [addSearchDir] tests and adds: built from
    [pDirPath], and re-rooted under the sysroot when it is
    sysroot-relative. *)
Definition searchDir (pDirPath : string) (sysroot : Path) : MCLDDirectory :=
  let sd := MCLDDirectory_ctor pDirPath in
  if isInSysroot sd then MCLDDirectory_setSysroot sysroot sd else sd.

(** [void LinkerConfig::addSearchDir(const std::string &pDirPath)] *)
Definition addSearchDir (pDirPath : string) : M unit :=
  let sd := MCLDDirectory_ctor pDirPath in
  sd ← (if isInSysroot sd then
          i ← ldInfo;
          mret (MCLDDirectory_setSysroot (sysroot (options i)) sd)
        else mret sd);
  if fs_exists (path sd) && fs_is_directory (path sd) then
    modifyLDInfo (with_options (directories_add sd))
  else
    warning warn_cannot_open_search_dir [name sd].

End WithFileSystem.

End LinkerConfig.

(** ** Notions the statements use *)

Module Notions.

Import mcld LinkerConfig.

(** [sub] occurs in [s]. *)
Definition occurs_in (sub s : string) : Prop :=
  exists pre post : string, s = pre +:+ sub +:+ post.

(** Every [a] of [l] stands before every [b] of [l]. *)
Definition all_before {A : Type} (a b : A) (l : list A) : Prop :=
  forall i j : nat, l !! i = Some a -> l !! j = Some b -> (i < j)%nat.

(** How many options of kind [k] a sequence holds. *)
Definition count_kind (k : ZOption.Kind) (l : list ZOption.t) : nat :=
  length (filter (fun o => ZOption.kind o = k) l).

(** The state after [addZOption] was called on each option of [l]. *)
Definition appendZ (l : list ZOption.t) (st : State) : State :=
  mkState
    (set_mLDInfo
       (with_options (fun o => foldl (fun o z => mcld.addZOption z o) o l)
          <$> mLDInfo (this st))
       (this st))
    (trace st).

(** The tests of [setZOption], one after the other, as data. *)
Inductive Step : Type :=
| Either (mask : Z) (on off : ZOption.Kind)
| When (mask : Z) (on : ZOption.Kind).

Definition run_step (pOptions : Z) (s : Step) : ZOption.t -> M ZOption.t :=
  match s with
  | Either mask on off => either_bit pOptions mask on off
  | When mask on => when_bit pOptions mask on
  end.

(** The tests of [l] in turn, each handing the local [option] to the
    next, and then [rest]. *)
Fixpoint run_steps {A : Type} (pOptions : Z) (l : list Step)
    (rest : ZOption.t -> M A) (option : ZOption.t) : M A :=
  match l with
  | [] => rest option
  | s :: l' => run_step pOptions s option ≫= run_steps pOptions l' rest
  end.

(** The kinds one test hands to [addZOption]. *)
Definition step_kinds (pOptions : Z) (s : Step) : list ZOption.Kind :=
  match s with
  | Either mask on off => [if has_bit pOptions mask then on else off]
  | When mask on => if has_bit pOptions mask then [on] else []
  end.

Section WithHeaders.
Context `{ZOptionEnum}.

Definition steps : list Step :=
  [ Either kCombReloc ZOption.CombReloc ZOption.NoCombReloc;
    When kDefs ZOption.Defs;
    Either kExecStack ZOption.ExecStack ZOption.NoExecStack;
    When kInitFirst ZOption.InitFirst;
    When kInterPose ZOption.InterPose;
    When kLoadFltr ZOption.LoadFltr;
    When kMulDefs ZOption.MulDefs;
    When kNoCopyReloc ZOption.NoCopyReloc;
    When kNoDefaultLib ZOption.NoDefaultLib;
    When kNoDelete ZOption.NoDelete;
    When kNoDLOpen ZOption.NoDLOpen;
    When kNoDump ZOption.NoDump;
    Either kRelro ZOption.Relro ZOption.NoRelro;
    Either kLazy ZOption.Lazy ZOption.Now;
    When kOrigin ZOption.Origin ].

(** The four pairs, each with its bit, its kind when the bit is set and
    its kind when the bit is clear. *)
Definition paired : list (Z * ZOption.Kind * ZOption.Kind) :=
  [ (kCombReloc, ZOption.CombReloc, ZOption.NoCombReloc);
    (kExecStack, ZOption.ExecStack, ZOption.NoExecStack);
    (kRelro, ZOption.Relro, ZOption.NoRelro);
    (kLazy, ZOption.Lazy, ZOption.Now) ].

(** The eleven options that stand alone, each with its bit. *)
Definition single : list (Z * ZOption.Kind) :=
  [ (kDefs, ZOption.Defs); (kInitFirst, ZOption.InitFirst);
    (kInterPose, ZOption.InterPose); (kLoadFltr, ZOption.LoadFltr);
    (kMulDefs, ZOption.MulDefs); (kNoCopyReloc, ZOption.NoCopyReloc);
    (kNoDefaultLib, ZOption.NoDefaultLib); (kNoDelete, ZOption.NoDelete);
    (kNoDLOpen, ZOption.NoDLOpen); (kNoDump, ZOption.NoDump);
    (kOrigin, ZOption.Origin) ].

End WithHeaders.

(** What the destructor does, in order, on a configuration whose printer
    is [printer]. *)
Definition dtor_trace (c : LinkerConfig) (printer : TextDiagnosticPrinter)
  : list Effect :=
  (if mLDInfo c is Some _ then [Delete LDInfo] else [])
  ++ (if negb (getNumErrors printer =? 0)%N
      then [RunInterruptHandlers] else [])
  ++ [Finish]
  ++ (if mDiagLineInfo c =? NULL then [] else [Delete DiagLineInfo])
  ++ [Delete DiagPrinter].

(** The two rename rules, the method of each and the name each redirects
    a symbol to. *)
Inductive Rule : Type :=
| Wrap
| Portable.

Definition register (r : Rule) (symbol : string) : M unit :=
  match r with
  | Wrap => addWrap symbol
  | Portable => addPortable symbol
  end.

Definition redirected (r : Rule) (symbol : string) : string :=
  match r with
  | Wrap => "__wrap_" +:+ symbol
  | Portable => symbol +:+ "_portable"
  end.

Definition real (symbol : string) : string := "__real_" +:+ symbol.

(** The body [addWrap] and [addPortable] share, with the redirected name
    as an argument. *)
Definition add_rename (symbol to_str : string) : M unit :=
  exist ← renameMap_insert symbol;
  entry_setValue symbol to_str;;
  (if exist : bool then warning rewrap [symbol; to_str] else skip);;
  let from_real_str := "__real_" +:+ symbol in
  exist ← renameMap_insert from_real_str;
  entry_setValue from_real_str symbol;;
  (if exist : bool then warning rewrap [symbol; from_real_str] else skip).

(** What an outcome shows: the effects so far, and the linker
    information of the object. *)
Definition trace_after {A : Type} (r : option (A * State))
  : option (list Effect) :=
  match r with
  | Some (_, st) => Some (trace st)
  | None => None
  end.

Definition info_after {A : Type} (r : option (A * State)) : option MCLDInfo :=
  match r with
  | Some (_, st) => mLDInfo (this st)
  | None => None
  end.

Definition kinds_after {A : Type} (r : option (A * State))
  : option (list ZOption.Kind) :=
  match info_after r with
  | Some i => Some (map ZOption.kind (zOptions (options i)))
  | None => None
  end.

Definition directories_after {A : Type} (r : option (A * State))
  : option (list MCLDDirectory) :=
  match info_after r with
  | Some i => Some (directories (options i))
  | None => None
  end.

Definition renamed_after {A : Type} (key : string) (r : option (A * State))
  : option string :=
  match info_after r with
  | Some i => renameMap (scripts i) !! key
  | None => None
  end.

(** The warnings [addWrap] and [addPortable] raise on a table [m]: one for
    each of the two keys that [m] already holds. *)
Definition collisions (m : gmap string string)
    (symbol to_str from_real_str : string) : list Effect :=
  (if m !! symbol is Some _ then [Warning rewrap [symbol; to_str]] else [])
  ++ (if m !! from_real_str is Some _
      then [Warning rewrap [symbol; from_real_str]] else []).

End Notions.

(** ** A small world for the worked examples

    One registered target, a file system with a sysroot holding [/lib], and
    the option bits one per test of [setZOption], in its order. *)

Module Sample.

Import mcld LinkerConfig.

Definition triple : string := "armv7-none-linux-gnueabi".

Definition library : McldLibrary := {|
  lookupTarget t :=
    if String.eqb t triple then (4096, EmptyString)
    else (NULL, "No available targets are compatible with this triple.");
  createDiagnosticLineInfo _ _ := 8192;
  MCLDInfo_ctor _ _ _ :=
    mkMCLDInfo (mkGeneralOptions false EmptyString "/" [] [])
               (mkScriptOptions ∅);
  TextDiagnosticPrinter_ctor _ := mkTextDiagnosticPrinter 0;
  ZOption_ctor := ZOption.mk ZOption.Unknown 0;
  MCLDDirectory_ctor p :=
    match p with
    | String "="%char rest => mkMCLDDirectory p rest true
    | _ => mkMCLDDirectory p p false
    end;
  MCLDDirectory_setSysroot root sd :=
    mkMCLDDirectory (name sd) (root +:+ path sd) (isInSysroot sd);
  fs_exists p := bool_decide (p ∈ ["/sdk/lib"; "/sdk/lib/libc.so"; "/lib"]);
  fs_is_directory p := bool_decide (p ∈ ["/sdk/lib"; "/lib"])
|}.

Definition bits : ZOptionEnum := {|
  kCombReloc := 1; kDefs := 2; kExecStack := 4; kInitFirst := 8;
  kInterPose := 16; kLoadFltr := 32; kMulDefs := 64; kNoCopyReloc := 128;
  kNoDefaultLib := 256; kNoDelete := 512; kNoDLOpen := 1024; kNoDump := 2048;
  kRelro := 4096; kLazy := 8192; kOrigin := 16384
|}.

(** The linker information of a fresh configuration whose sysroot was set
    to [/sdk]. *)
Definition info : MCLDInfo :=
  mkMCLDInfo (mkGeneralOptions false EmptyString "/sdk" [] [])
             (mkScriptOptions ∅).

(** A configuration as the constructor and [setSysRoot("/sdk")] leave it
    for [triple], whose printer has counted [errors] errors since. *)
Definition config (errors : N) : LinkerConfig :=
  mkLinkerConfig triple false EmptyString 4096 (Some info)
    8192 (Some (mkTextDiagnosticPrinter errors)).

(** The configuration with no effect recorded yet. *)
Definition state (errors : N) : State := mkState (config errors) [].

(** The state [addPortable("__real_f")] leaves from [state 0]: [f] itself
    has no entry, [__real_f] has one. *)
Definition renamed_info : MCLDInfo :=
  with_renameMap
    (fun m => <["__real___real_f" := "__real_f"]>
                (<["__real_f" := "__real_f_portable"]> m))
    info.

Definition renamed : State :=
  mkState (set_mLDInfo (Some renamed_info) (config 0)) [].

End Sample.

(** ** The script state machine, from the specification

    [Script.h] declares [readBC], [linkBC], [loadCacheFile] and [compile]
    and gives them no body, and its union carries no code that
    discriminates it.  What these operations do to the state of a script
    is therefore taken from the specification's component design: its
    states, its backend variant, its error kinds and its four
    state-changing operations, under its own names. *)

Module ScriptCore.

(** Modelled from the spec: the tag of the backend variant, which is
    Compiled or Cached; the enumerators of [Script.h] do not list the
    second. *)
Inductive Tag : Type :=
| Compiled
| Cached.

#[global] Instance Tag_eq_dec : EqDecision Tag.
Proof. solve_decision. Defined.

(** Modelled from the spec: the payload of a backend, the same logical
    tables for both tags: exported symbols, export variables, export
    functions, pragmas, and the binary extent of each function.  The
    classes [ScriptCompiled] and [ScriptCached] that hold them are only
    forward-declared in [Script.h]. *)
Record Artifact : Type := mkArtifact {
  symbols : list (string * pointer);
  exportVars : list pointer;
  exportFuncs : list pointer;
  pragmas : list (string * string);
  functions : list (string * (pointer * Z))
}.

(** Modelled from the spec: the backend variant, a tag with its payload;
    exactly one is live at a time. *)
Record ArtifactBackend : Type := mkBackend {
  tag : Tag;
  payload : Artifact
}.

(** Modelled from the spec: the two states of the state machine, Unknown
    (initial, no backend resolved) and Resolved (a backend is present). *)
Inductive State : Type :=
| Unknown
| Resolved (backend : ArtifactBackend).

(** Modelled from the spec: the error kinds of its error handling design;
    the values of [bcc.h] behind them are not used. *)
Inductive ErrorKind : Type :=
| InvalidBitcode
| InvalidState
| CacheMiss
| CompileError
| ConfigError.

#[global] Instance ErrorKind_eq_dec : EqDecision ErrorKind.
Proof. solve_decision. Defined.

(** Modelled from the spec: the provenance of a bitcode unit. *)
Record CacheIdentity : Type := mkCacheIdentity {
  resourceName : string;
  sourceModTime : Z;
  sourceChecksum : Z;
  cacheDirectory : string
}.

(** Modelled from the spec: what a persisted cache artifact carries at the
    least, the modification time and the checksum recorded with it (its
    resource name is the key it is found under). *)
Record CacheEntry : Type := mkCacheEntry {
  recordedModTime : Z;
  recordedChecksum : Z
}.

(** Raw bitcode, by its bytes; its size is their number. *)
Definition Bitcode : Type := list Z.

(** A registered resolver hook: the callback and its opaque context. *)
Definition Hook : Type := (pointer * pointer)%type.

(** Modelled from the spec: the collaborators it keeps out of scope and
    consumes through a narrow contract.  The cache directory holds at most
    one entry per resource name, and deserialising it succeeds or not; the
    compiling collaborator validates bitcode, compiles a module under a
    resolver hook to an artifact or reports a diagnostic text, and merges
    two modules. *)
Class Collaborators : Type := {
  cacheEntry : string -> string -> option CacheEntry;
  deserialize : string -> string -> option Artifact;
  wellFormed : Bitcode -> bool;
  compileModule : Bitcode -> option Hook -> Artifact + string;
  linkModules : Bitcode -> Bitcode -> Bitcode
}.

(** Modelled from the spec: the script core, which owns zero or one
    backend (its state), the latched error slot (clear when [None]), the
    raw bitcode retained for a later compile, the resolver hook, and the
    diagnostic text of the last failed compilation.  The members of
    [class Script] for the last three are not in [Script.h]. *)
Record ScriptCore : Type := mkScriptCore {
  state : State;
  errorSlot : option ErrorKind;
  pending : option Bitcode;
  resolver : option Hook;
  compilerErrorMessage : string
}.

Definition set_state (st : State) (s : ScriptCore) : ScriptCore :=
  mkScriptCore st (errorSlot s) (pending s) (resolver s)
               (compilerErrorMessage s).

Definition set_errorSlot (e : option ErrorKind) (s : ScriptCore)
  : ScriptCore :=
  mkScriptCore (state s) e (pending s) (resolver s) (compilerErrorMessage s).

Definition set_pending (b : option Bitcode) (s : ScriptCore) : ScriptCore :=
  mkScriptCore (state s) (errorSlot s) b (resolver s)
               (compilerErrorMessage s).

Definition set_resolver (h : option Hook) (s : ScriptCore) : ScriptCore :=
  mkScriptCore (state s) (errorSlot s) (pending s) h
               (compilerErrorMessage s).

Definition set_compilerErrorMessage (m : string) (s : ScriptCore)
  : ScriptCore :=
  mkScriptCore (state s) (errorSlot s) (pending s) (resolver s) m.

(** Modelled from the spec: a script core as constructed, in the initial
    state Unknown with a clear error slot.  This is what the constructor
    of [Script.h] sets; the rest starts empty. *)
Definition fresh : ScriptCore :=
  mkScriptCore Unknown None None None EmptyString.

(** Modelled from the spec: the write of the latched error slot, which
    only overwrites a slot that is clear.  It is [Script::setError] over
    the error kinds, for an error that is a real one. *)
Definition latch (e : ErrorKind) (s : ScriptCore) : ScriptCore :=
  if errorSlot s is None then set_errorSlot (Some e) s else s.

(** Modelled from the spec: the read of the latched error slot, which
    returns the current value and resets the slot. *)
Definition getError (s : ScriptCore) : option ErrorKind * ScriptCore :=
  (errorSlot s, set_errorSlot None s).

Section WithCollaborators.
Context `{Collaborators}.

(** Modelled from the spec: the validity of a cache entry for an
    identity.  An entry is valid iff a serialized artifact exists in the
    cache directory for the resource name, and its recorded modification
    time equals the identity's, and its recorded checksum equals the
    identity's. *)
Definition valid (identity : CacheIdentity) : bool :=
  match cacheEntry (cacheDirectory identity) (resourceName identity) with
  | Some e =>
      (recordedModTime e =? sourceModTime identity)
      && (recordedChecksum e =? sourceChecksum identity)
  | None => false
  end.

(** Modelled from the spec: [loadFromCache(identity)], of which [Script.h]
    declares [loadCacheFile] only.  It attempts to deserialize a matching
    on-disk artifact; on success it transitions to Resolved with a Cached
    backend; on failure it leaves the state Unknown and records CacheMiss.
    Called while already Resolved it changes no state and returns an
    error.  The result is the status returned and the core after. *)
Definition loadFromCache (identity : CacheIdentity) (s : ScriptCore)
  : bool * ScriptCore :=
  match state s with
  | Resolved _ => (false, latch InvalidState s)
  | Unknown =>
      match
        (if valid identity
         then deserialize (cacheDirectory identity) (resourceName identity)
         else None)
      with
      | Some artifact =>
          (true, set_state (Resolved (mkBackend Cached artifact)) s)
      | None => (false, latch CacheMiss s)
      end
  end.

(** Modelled from the spec: [ingestBitcode(bytes, size, identity)], of
    which [Script.h] declares [readBC] only.  It fails with InvalidBitcode
    if the bytes are empty or malformed; if the identity has a valid cache
    entry it delegates to [loadFromCache]; otherwise it retains the raw
    bitcode for a later [compile].  Called while already Resolved it
    changes no state and returns an error. *)
Definition ingestBitcode (bytes : Bitcode) (identity : CacheIdentity)
    (s : ScriptCore) : bool * ScriptCore :=
  match state s with
  | Resolved _ => (false, latch InvalidState s)
  | Unknown =>
      if bool_decide (bytes = []) || negb (wellFormed bytes)
      then (false, latch InvalidBitcode s)
      else if valid identity then loadFromCache identity s
      else (true, set_pending (Some bytes) s)
  end.

(** Modelled from the spec: [linkBitcode(bytes, size)], of which
    [Script.h] declares [linkBC] only.  It merges a second module into the
    pending module; it is illegal once Resolved, and there is nothing to
    merge into when no bitcode is pending. *)
Definition linkBitcode (bytes : Bitcode) (s : ScriptCore)
    : bool * ScriptCore :=
  match state s, pending s with
  | Unknown, Some module =>
      (true, set_pending (Some (linkModules module bytes)) s)
  | _, _ => (false, latch InvalidState s)
  end.

(** Modelled from the spec: [compile()], of which [Script.h] gives the
    declaration only.  It invokes the compiling collaborator on the
    pending module under the registered resolver hook, producing a
    Compiled backend, and transitions to Resolved; it fails with
    CompileError if the collaborator reports failure, keeping its
    diagnostic text; called when no bitcode was ingested, or when already
    Resolved, it fails with InvalidState. *)
Definition compile (s : ScriptCore) : bool * ScriptCore :=
  match state s, pending s with
  | Unknown, Some module =>
      match compileModule module (resolver s) with
      | inl artifact =>
          (true, set_state (Resolved (mkBackend Compiled artifact)) s)
      | inr message =>
          (false, latch CompileError (set_compilerErrorMessage message s))
      end
  | _, _ => (false, latch InvalidState s)
  end.

(** Modelled from the spec: [registerSymbolCallback(fn, context)], which
    stores a resolver hook at any state. *)
Definition registerSymbolCallback (fn context : pointer) (s : ScriptCore)
  : ScriptCore :=
  set_resolver (Some (fn, context)) s.

(** The operations that write to a script core.  The lookups and the bulk
    accessors of the specification are pure reads and are left out. *)
Inductive Op : Type :=
| IngestBitcode (bytes : Bitcode) (identity : CacheIdentity)
| LinkBitcode (bytes : Bitcode)
| LoadFromCache (identity : CacheIdentity)
| Compile
| RegisterSymbolCallback (fn context : pointer)
| SetError (e : ErrorKind)
| GetError.

(** One operation: whether it succeeded, and the core after. *)
Definition step (op : Op) (s : ScriptCore) : bool * ScriptCore :=
  match op with
  | IngestBitcode bytes identity => ingestBitcode bytes identity s
  | LinkBitcode bytes => linkBitcode bytes s
  | LoadFromCache identity => loadFromCache identity s
  | Compile => compile s
  | RegisterSymbolCallback fn context =>
      (true, registerSymbolCallback fn context s)
  | SetError e => (true, latch e s)
  | GetError => (true, (getError s).2)
  end.

(** The operations of [ops], one after the other. *)
Definition run (ops : list Op) (s : ScriptCore) : ScriptCore :=
  foldl (fun s op => (step op s).2) s ops.

End WithCollaborators.

(** Collaborators for the worked examples: one cache entry, for the
    resource [main] under [/cache], which deserialises; every non-empty
    bitcode is well formed and compiles. *)
Definition sample_artifact : Artifact :=
  mkArtifact [("root", 4096)] [] [4096] [("version", "1")]
             [("root", (4096, 64))].

Definition sample_collaborators : Collaborators := {|
  cacheEntry dir name :=
    if String.eqb dir "/cache" && String.eqb name "main"
    then Some (mkCacheEntry 1300000000 3405691582) else None;
  deserialize dir name :=
    if String.eqb dir "/cache" && String.eqb name "main"
    then Some sample_artifact else None;
  wellFormed _ := true;
  compileModule _ _ := inl sample_artifact;
  linkModules a b := a ++ b
|}.

Definition sample_identity : CacheIdentity :=
  mkCacheIdentity "main" 1300000000 3405691582 "/cache".

(** The same resource, modified since it was cached. *)
Definition stale_identity : CacheIdentity :=
  mkCacheIdentity "main" 1300000001 3405691582 "/cache".

End ScriptCore.

(** ** Sequences of calls

    What a user of the two classes does with them: several calls in a row.
    The notions below name such sequences, for the statements of the last
    two modules of Part II. *)

Module Usage.

Import ScriptStatus Script mcld LinkerConfig Notions.

Section WithBccHeader.
Context `{BccHeader}.

(** [setError(e)] for each [e] of [errors], in order. *)
Definition setErrors (errors : list BCCenum) (s : Script) : Script :=
  foldl (fun s e => setError e s) s errors.

(** The first code of [errors] that is not [BCC_NO_ERROR], and
    [BCC_NO_ERROR] when there is none. *)
Fixpoint first_error (errors : list BCCenum) : BCCenum :=
  match errors with
  | [] => BCC_NO_ERROR
  | e :: errors' => if e =? BCC_NO_ERROR then first_error errors' else e
  end.

End WithBccHeader.

(** A configuration every method can run on: the two owning pointers the
    methods and the destructor dereference are not null. *)
Definition usable (c : LinkerConfig) : Prop :=
  is_Some (mLDInfo c) /\ is_Some (mDiagPrinter c).

(** The members no configuration method assigns. *)
Definition same_identity (c c' : LinkerConfig) : Prop :=
  mTriple c' = mTriple c
  /\ mTarget c' = mTarget c
  /\ mDiagLineInfo c' = mDiagLineInfo c
  /\ mDiagPrinter c' = mDiagPrinter c.

Definition is_Warning (e : Effect) : Prop :=
  match e with
  | Warning _ _ => True
  | _ => False
  end.

(** A call of one of the public configuration methods. *)
Inductive Call : Type :=
| CallSetShared (pEnable : bool)
| CallSetBsymbolic (pEnable : bool)
| CallSetSOName (pSOName : string)
| CallSetDyld (pDyld : string)
| CallSetSysRoot (pSysRoot : string)
| CallSetZOption (pOptions : Z)
| CallAddWrap (pWrapSymbol : string)
| CallAddPortable (pPortableSymbol : string)
| CallAddSearchDir (pDirPath : string).

Section WithHeaders.
Context `{McldLibrary} `{ZOptionEnum}.

Definition call (k : Call) : M unit :=
  match k with
  | CallSetShared pEnable => setShared pEnable
  | CallSetBsymbolic pEnable => setBsymbolic pEnable
  | CallSetSOName pSOName => setSOName pSOName
  | CallSetDyld pDyld => setDyld pDyld
  | CallSetSysRoot pSysRoot => setSysRoot pSysRoot
  | CallSetZOption pOptions => setZOption pOptions
  | CallAddWrap pWrapSymbol => addWrap pWrapSymbol
  | CallAddPortable pPortableSymbol => addPortable pPortableSymbol
  | CallAddSearchDir pDirPath => addSearchDir pDirPath
  end.

(** The calls of [l], one after the other. *)
Fixpoint calls (l : list Call) : M unit :=
  match l with
  | [] => skip
  | k :: l' => call k;; calls l'
  end.

(** The options [setZOption(pOptions)] hands to [addZOption], in order. *)
Definition zoptions_for (pOptions : Z) : list ZOption.t :=
  map (fun k => ZOption.mk k (ZOption.pageSize ZOption_ctor))
      (flat_map (step_kinds pOptions) steps).

End WithHeaders.

(** The kinds a test of [setZOption] can hand over. *)
Definition step_all_kinds (s : Step) : list ZOption.Kind :=
  match s with
  | Either _ on off => [on; off]
  | When _ on => [on]
  end.

(** The kinds of [-z] options in the order in which [setZOption] tests
    for them. *)
Definition zOrder : list ZOption.Kind :=
  [ ZOption.CombReloc; ZOption.NoCombReloc; ZOption.Defs;
    ZOption.ExecStack; ZOption.NoExecStack; ZOption.InitFirst;
    ZOption.InterPose; ZOption.LoadFltr; ZOption.MulDefs;
    ZOption.NoCopyReloc; ZOption.NoDefaultLib; ZOption.NoDelete;
    ZOption.NoDLOpen; ZOption.NoDump; ZOption.Relro; ZOption.NoRelro;
    ZOption.Lazy; ZOption.Now; ZOption.Origin ].

(** The rename table an outcome leaves. *)
Definition table_after {A : Type} (r : option (A * State))
  : option (gmap string string) :=
  match info_after r with
  | Some i => Some (renameMap (scripts i))
  | None => None
  end.

End Usage.

(* ===================================================================== *)
(** * Part II: theorems                                                   *)
(* ===================================================================== *)

(** ** The error slot of [Script] *)

Module ScriptFacts.

Import ScriptStatus Script.

Section WithBccHeader.
Context `{BccHeader}.

Lemma setError_latched (s : Script) (e : BCCenum) :
  mErrorCode s <> BCC_NO_ERROR -> setError e s = s.
Proof.
  intros Hset. unfold setError.
  destruct (Z.eqb_spec (mErrorCode s) BCC_NO_ERROR) as [Heq | _];
    [contradiction | reflexivity].
Qed.

Lemma setError_clear (s : Script) (e : BCCenum) :
  mErrorCode s = BCC_NO_ERROR -> mErrorCode (setError e s) = e.
Proof.
  intros Hclear. unfold setError. rewrite Hclear, Z.eqb_refl. simpl.
  destruct (Z.eqb_spec e BCC_NO_ERROR) as [-> | _]; simpl;
    [exact Hclear | reflexivity].
Qed.

Lemma setError_frame (s : Script) (e : BCCenum) :
  mStatus (setError e s) = mStatus s
  /\ mUnion (setError e s) = mUnion s
  /\ mpExtSymbolLookupFn (setError e s) = mpExtSymbolLookupFn s
  /\ mpExtSymbolLookupFnContext (setError e s) = mpExtSymbolLookupFnContext s.
Proof.
  unfold setError.
  destruct ((mErrorCode s =? BCC_NO_ERROR) && negb (e =? BCC_NO_ERROR));
    repeat split.
Qed.

Lemma getError_clears (s : Script) :
  mErrorCode (getError s).2 = BCC_NO_ERROR.
Proof. reflexivity. Qed.

(** The sequence of the specification's own example: from a clear slot,
    [setError(E1); setError(E2); getError()] yields [E1]. *)
Lemma setError_twice_getError (s : Script) (E1 E2 : BCCenum) :
  mErrorCode s = BCC_NO_ERROR -> E1 <> BCC_NO_ERROR ->
  (getError (setError E2 (setError E1 s))).1 = E1.
Proof.
  intros Hclear HE1. simpl.
  rewrite setError_latched; [now apply setError_clear |].
  now rewrite setError_clear.
Qed.

(** C2: first error wins.  When the slot of a [Script] already holds a
    code [E1] other than [BCC_NO_ERROR], [setError(E2)] leaves the object
    as it was, for every [E2] (so for every [E2] other than
    [BCC_NO_ERROR]): the slot still holds [E1], and the next [getError()]
    returns [E1]. *)
Theorem setError_first_error_wins (s : Script) (E1 E2 : BCCenum) :
  mErrorCode s = E1 -> E1 <> BCC_NO_ERROR ->
  mErrorCode (setError E2 s) = E1
  /\ (getError (setError E2 s)).1 = E1.
Proof.
  intros Hslot HE1. subst E1.
  rewrite (setError_latched s E2 HE1). split; reflexivity.
Qed.

(** C3: reading the error clears it.  On a [Script] whose slot is clear,
    after [setError(E)] with [E] other than [BCC_NO_ERROR] the first
    [getError()] returns [E] and the second returns [BCC_NO_ERROR]. *)
Theorem getError_returns_then_resets (s : Script) (E : BCCenum) :
  mErrorCode s = BCC_NO_ERROR -> E <> BCC_NO_ERROR ->
  let first := getError (setError E s) in
  let second := getError first.2 in
  first.1 = E /\ second.1 = BCC_NO_ERROR.
Proof.
  intros Hclear HE first second. subst first second. split.
  - simpl. now apply setError_clear.
  - apply getError_clears.
Qed.

(** C9: [setError(BCC_NO_ERROR)] changes nothing, whatever the slot holds
    (a clear slot included); no [setError] clears a slot, since the slot is
    clear after [setError(e)] only when it was clear before and [e] is
    [BCC_NO_ERROR], so the one thing that clears a latched error is
    [getError], which always does; and a freshly constructed [Script] has a
    clear slot, so its first [getError()] returns [BCC_NO_ERROR]. *)
Theorem setError_no_error_changes_nothing :
  (forall s : Script, setError BCC_NO_ERROR s = s)
  /\ (forall (s : Script) (e : BCCenum),
        mErrorCode (setError e s) = BCC_NO_ERROR
        <-> mErrorCode s = BCC_NO_ERROR /\ e = BCC_NO_ERROR)
  /\ (forall s : Script, mErrorCode (getError s).2 = BCC_NO_ERROR)
  /\ (forall junk : Indeterminate,
        mErrorCode (Script_ctor junk) = BCC_NO_ERROR
        /\ (getError (Script_ctor junk)).1 = BCC_NO_ERROR).
Proof.
  split; [| split; [| split]].
  - intros s. unfold setError. rewrite Z.eqb_refl. simpl.
    now rewrite andb_false_r.
  - intros s e. split.
    + intros Hafter.
      destruct (Z.eq_dec (mErrorCode s) BCC_NO_ERROR) as [Hclear | Hset].
      * split; [exact Hclear |].
        now rewrite (setError_clear s e Hclear) in Hafter.
      * rewrite (setError_latched s e Hset) in Hafter. contradiction.
    + intros [Hclear ->]. now rewrite setError_clear.
  - intros s. apply getError_clears.
  - intros junk. split; reflexivity.
Qed.

End WithBccHeader.

(** Worked examples, with [BCC_NO_ERROR] taken as 0. *)

Example first_error_is_kept :
  let s := @Script_ctor sample_header sample_junk in
  let s := @setError sample_header 1282 s in
  let s := @setError sample_header 1281 s in
  let first := @getError sample_header s in
  let second := @getError sample_header first.2 in
  first.1 = 1282 /\ second.1 = 0.
Proof. split; reflexivity. Qed.

Example no_error_is_not_recorded :
  let s := @Script_ctor sample_header sample_junk in
  @setError sample_header 0 s = s
  /\ (@getError sample_header (@setError sample_header 0 s)).1 = 0.
Proof. split; reflexivity. Qed.

Lemma Script_ctor_Unknown `{BccHeader} (junk : Indeterminate) :
  mStatus (Script_ctor junk) = Unknown.
Proof. reflexivity. Qed.

Lemma setError_first_error_wins_witness :
  let s := mkScript 1282 Unknown 0 0 0 in
  mErrorCode s = 1282 /\ 1282 <> @BCC_NO_ERROR sample_header
  /\ (mErrorCode (@setError sample_header 1281 s) = 1282
      /\ (@getError sample_header (@setError sample_header 1281 s)).1 = 1282).
Proof.
  intros s. split; [reflexivity |]. split; [simpl; lia |].
  apply (@setError_first_error_wins sample_header s 1282 1281);
    [reflexivity | simpl; lia].
Defined.

Lemma getError_returns_then_resets_witness :
  let s := @Script_ctor sample_header sample_junk in
  mErrorCode s = @BCC_NO_ERROR sample_header
  /\ 1281 <> @BCC_NO_ERROR sample_header
  /\ (let first := @getError sample_header (@setError sample_header 1281 s) in
      let second := @getError sample_header first.2 in
      first.1 = 1281 /\ second.1 = @BCC_NO_ERROR sample_header).
Proof.
  intros s. split; [reflexivity |]. split; [simpl; lia |].
  apply (@getError_returns_then_resets sample_header s 1281);
    [reflexivity | simpl; lia].
Defined.

End ScriptFacts.

(** ** The states of the script state machine *)

Module ScriptCoreFacts.

Import ScriptCore.



Section WithCollaborators.
Context `{Collaborators}.






End WithCollaborators.


(** Worked examples. *)

Example load_then_compile_keeps_Cached :
  let s := @run sample_collaborators
             [LoadFromCache sample_identity;
              IngestBitcode [66; 67] stale_identity; Compile] fresh in
  state s = Resolved (mkBackend Cached sample_artifact)
  /\ errorSlot s = Some InvalidState.
Proof. split; reflexivity. Qed.

Example miss_then_compile_is_Compiled :
  let s := @run sample_collaborators
             [LoadFromCache stale_identity;
              IngestBitcode [66; 67] stale_identity; Compile] fresh in
  state s = Resolved (mkBackend Compiled sample_artifact)
  /\ (getError s).1 = Some CacheMiss.
Proof. split; reflexivity. Qed.

Example compile_without_bitcode_fails :
  @compile sample_collaborators fresh
  = (false, set_errorSlot (Some InvalidState) fresh).
Proof. reflexivity. Qed.

Example ingest_valid_entry_loads :
  let r := @ingestBitcode sample_collaborators [66; 67] sample_identity
             fresh in
  r.1 = true /\ state r.2 = Resolved (mkBackend Cached sample_artifact).
Proof. split; reflexivity. Qed.

End ScriptCoreFacts.

(** ** [LinkerConfig]: running a method *)

Module LinkerConfigFacts.

Import mcld LinkerConfig Notions.

(** Unfold the plumbing of [M] and compute. *)
Ltac run_M :=
  unfold mbind, mret, M_bind, M_ret, getThis, modifyThis, emit, skip,
    fault, deref;
  cbn.

Lemma bind_Some {A B : Type} (m : M A) (f : A -> M B)
    (st st' : State) (a : A) :
  m st = Some (a, st') -> (m ≫= f) st = f a st'.
Proof. intros Hm. unfold mbind, M_bind. now rewrite Hm. Qed.

Lemma bind_None {A B : Type} (m : M A) (f : A -> M B) (st : State) :
  m st = None -> (m ≫= f) st = None.
Proof. intros Hm. unfold mbind, M_bind. now rewrite Hm. Qed.

Lemma ldInfo_Some (st : State) (i : MCLDInfo) :
  mLDInfo (this st) = Some i -> ldInfo st = Some (i, st).
Proof.
  intros Hi. unfold ldInfo, mbind, M_bind, getThis, deref.
  now rewrite Hi.
Qed.

Lemma modifyLDInfo_Some (f : MCLDInfo -> MCLDInfo) (st : State)
    (i : MCLDInfo) :
  mLDInfo (this st) = Some i ->
  modifyLDInfo f st
  = Some (tt, mkState (set_mLDInfo (Some (f i)) (this st)) (trace st)).
Proof.
  intros Hi. unfold modifyLDInfo.
  now rewrite (bind_Some _ _ _ _ _ (ldInfo_Some st i Hi)).
Qed.

Lemma c_str_no_NUL (s : string) :
  "000"%char ∉ list_ascii_of_string s -> c_str s = s.
Proof.
  induction s as [| c s IH]; simpl; [reflexivity |].
  intros Hnot. destruct (Ascii.eqb_spec c "000"%char) as [-> | _].
  - exfalso. apply Hnot. left.
  - f_equal. apply IH. intros Hin. apply Hnot. now right.
Qed.

Lemma append_assoc (a b c : string) : (a +:+ b) +:+ c = a +:+ (b +:+ c).
Proof.
  induction a as [| x a IH]; [reflexivity |].
  change (String x ((a +:+ b) +:+ c) = String x (a +:+ b +:+ c)).
  now f_equal.
Qed.

(** ** Target-triple resolution *)

Section WithMcld.
Context `{McldLibrary}.

(** C8: [initializeTarget] fails closed.  When the registry has no target
    for the triple of the configuration, the call returns [false], leaves
    [mTarget] null and logs one error line in which the triple stands (as
    the C string [%s] prints); when the registry has one, the call returns
    [true] with that target, which is not null, in [mTarget], and logs
    nothing. *)
Theorem initializeTarget_fails_closed (st : State) :
  let triple := mTriple (this st) in
  ((lookupTarget triple).1 = NULL ->
     exists (st' : State) (msg : string),
       initializeTarget st = Some (false, st')
       /\ mTarget (this st') = NULL
       /\ trace st' = trace st ++ [ALOGE msg]
       /\ occurs_in (c_str triple) msg
       /\ occurs_in (c_str (lookupTarget triple).2) msg)
  /\ ((lookupTarget triple).1 <> NULL ->
        exists st' : State,
          initializeTarget st = Some (true, st')
          /\ mTarget (this st') = (lookupTarget triple).1
          /\ mTarget (this st') <> NULL
          /\ trace st' = trace st).
Proof.
  intros triple. subst triple. unfold initializeTarget. run_M.
  destruct (lookupTarget (mTriple (this st))) as [target error] eqn:Hlookup.
  cbn. split.
  - intros Hnull. subst target. cbn.
    eexists; eexists. split; [reflexivity |]. cbn.
    repeat split.
    + exists "Cannot initialize mcld::Target for given triple '".
      eexists. reflexivity.
    + exists ("Cannot initialize mcld::Target for given triple '"
              +:+ c_str (mTriple (this st)) +:+ "'! (").
      eexists. now rewrite !append_assoc.
  - intros Hsome.
    destruct target as [| p | p]; [now contradiction Hsome | |];
      cbn; eexists; repeat split; assumption.
Qed.

End WithMcld.

(** ** The rename table *)

Lemma length_append (a b : string) :
  String.length (a +:+ b) = (String.length a + String.length b)%nat.
Proof.
  induction a as [| x a IH]; [reflexivity |].
  change (S (String.length (a +:+ b))
          = S (String.length a + String.length b)).
  now f_equal.
Qed.

(** A symbol is never its own [__real_] name. *)
Lemma real_neq (symbol : string) : symbol <> real symbol.
Proof.
  intros Heq. apply (f_equal String.length) in Heq.
  unfold real in Heq. rewrite length_append in Heq. cbn in Heq. lia.
Qed.

Lemma register_add_rename (r : Rule) (symbol : string) :
  register r symbol = add_rename symbol (redirected r symbol).
Proof. destruct r; reflexivity. Qed.

Lemma add_rename_run (symbol to_str : string) (st : State) (i : MCLDInfo) :
  mLDInfo (this st) = Some i ->
  add_rename symbol to_str st
  = Some (tt,
          mkState
            (set_mLDInfo
               (Some (with_renameMap
                        (fun m => <[real symbol := symbol]>
                                    (<[symbol := to_str]> m)) i))
               (this st))
            (trace st
               ++ collisions (renameMap (scripts i)) symbol to_str
                             (real symbol))).
Proof.
  destruct st as [[tri sh so tg ld li pr] tr]. cbn. intros ->.
  destruct i as [o [m]]. pose proof (real_neq symbol) as Hneq.
  unfold add_rename, collisions, renameMap_insert, entry_setValue, warning,
    modifyLDInfo, ldInfo, real in *.
  run_M.
  destruct (m !! symbol) as [old |] eqn:Hsymbol; cbn;
    rewrite ?lookup_insert_ne by exact Hneq;
    destruct (m !! ("__real_" +:+ symbol)) as [old' |] eqn:Hreal; cbn;
    unfold set_mLDInfo, with_renameMap; cbn;
    rewrite ?insert_insert_eq, <- ?app_assoc, ?app_nil_r; reflexivity.
Qed.

(** C5: what a rename rule installs.  On a configuration with linker
    information, [addWrap(X)] returns and leaves a table in which [X] is
    renamed to [__wrap_X] and [__real_X] to [X], and [addPortable(X)] one
    in which [X] is renamed to [X_portable] and [__real_X] to [X]; every
    other key of the table is as before, and so are the options. *)
Theorem rename_rule_installs (r : Rule) (X : string) (st : State)
    (i : MCLDInfo) :
  mLDInfo (this st) = Some i ->
  exists (st' : State) (i' : MCLDInfo),
    register r X st = Some (tt, st')
    /\ mLDInfo (this st') = Some i'
    /\ renameMap (scripts i') !! X = Some (redirected r X)
    /\ renameMap (scripts i') !! real X = Some X
    /\ (forall k : string,
          k <> X -> k <> real X ->
          renameMap (scripts i') !! k = renameMap (scripts i) !! k)
    /\ options i' = options i.
Proof.
  intros Hinfo. rewrite register_add_rename.
  rewrite (add_rename_run X (redirected r X) st i Hinfo).
  eexists; eexists. split; [reflexivity |].
  split; [destruct st as [[] ?]; reflexivity |].
  cbn. repeat split.
  - rewrite lookup_insert_ne by (apply not_eq_sym, real_neq).
    apply lookup_insert_eq.
  - apply lookup_insert_eq.
  - intros k HkX Hkreal.
    now rewrite !lookup_insert_ne by (apply not_eq_sym; assumption).
Qed.

(** C6, as the code has it: registering a rename for [X] never fails and
    always leaves [X] renamed to the new name, whatever the table held for
    it; it raises the [rewrap] warning for [X] and the new name exactly
    when [X] had an entry, and the [rewrap] warning for [X] and [__real_X]
    exactly when [__real_X] had an entry, and nothing else.  So a symbol
    with an entry always draws a warning, and no warning is raised when
    neither [X] nor [__real_X] had an entry. *)
Theorem rename_collision_warns (r : Rule) (X : string) (st : State)
    (i : MCLDInfo) :
  mLDInfo (this st) = Some i ->
  exists (st' : State) (i' : MCLDInfo),
    register r X st = Some (tt, st')
    /\ mLDInfo (this st') = Some i'
    /\ renameMap (scripts i') !! X = Some (redirected r X)
    /\ trace st'
       = trace st
         ++ (if renameMap (scripts i) !! X is Some _
             then [Warning rewrap [X; redirected r X]] else [])
         ++ (if renameMap (scripts i) !! real X is Some _
             then [Warning rewrap [X; real X]] else [])
    /\ (is_Some (renameMap (scripts i) !! X) ->
        Warning rewrap [X; redirected r X] ∈ trace st')
    /\ (renameMap (scripts i) !! X = None ->
        renameMap (scripts i) !! real X = None ->
        trace st' = trace st).
Proof.
  intros Hinfo. rewrite register_add_rename.
  rewrite (add_rename_run X (redirected r X) st i Hinfo).
  eexists; eexists. split; [reflexivity |].
  split; [destruct st as [[] ?]; reflexivity |].
  cbn. unfold collisions. repeat split.
  - rewrite lookup_insert_ne by (apply not_eq_sym, real_neq).
    apply lookup_insert_eq.
  - intros [old Hold]. rewrite Hold.
    rewrite !elem_of_app. right. left. apply list_elem_of_singleton.
    reflexivity.
  - intros -> ->. cbn. apply app_nil_r.
Qed.

(** ** Search directories *)

Section WithFileSystem.
Context `{McldLibrary}.

(** C7: [addSearchDir(P)] adds the directory that [P] names if and only if
    it exists and is a directory.  The directory is the one built from [P],
    re-rooted under the configured sysroot when it is sysroot-relative, and
    the test is made on its path.  When the test holds, the directory is
    appended to the search directories and nothing is reported; otherwise
    one [warn_cannot_open_search_dir] warning names it and the
    configuration, its search directories included, stays as it was.  The
    call returns in both cases. *)
Theorem addSearchDir_adds_iff_directory (P : string) (st : State)
    (i : MCLDInfo) :
  mLDInfo (this st) = Some i ->
  let sd := searchDir P (sysroot (options i)) in
  exists (st' : State) (i' : MCLDInfo),
    addSearchDir P st = Some (tt, st')
    /\ mLDInfo (this st') = Some i'
    /\ (fs_exists (path sd) && fs_is_directory (path sd) = true ->
        directories (options i') = directories (options i) ++ [sd]
        /\ trace st' = trace st)
    /\ (fs_exists (path sd) && fs_is_directory (path sd) = false ->
        directories (options i') = directories (options i)
        /\ this st' = this st
        /\ trace st'
           = trace st ++ [Warning warn_cannot_open_search_dir [name sd]]).
Proof.
  destruct st as [[tri sh so tg ld li pr] tr]. cbn. intros ->.
  unfold addSearchDir, searchDir, warning, modifyLDInfo, ldInfo. run_M.
  destruct (isInSysroot (MCLDDirectory_ctor P)); cbn;
    match goal with
    | |- context [fs_exists ?p && fs_is_directory ?p] =>
        destruct (fs_exists p && fs_is_directory p)
    end;
    cbn; eexists; eexists;
    (split; [reflexivity |]); (split; [reflexivity |]);
    split; intros Htest; try discriminate Htest; repeat split.
Qed.

End WithFileSystem.

(** ** The [-z] options *)

Lemma foldl_addZOption (l : list ZOption.t) (o : GeneralOptions) :
  foldl (fun o z => mcld.addZOption z o) o l
  = mkGeneralOptions (bsymbolic o) (dyld o) (sysroot o)
                     (zOptions o ++ l) (directories o).
Proof.
  revert o. induction l as [| z l IH]; intros o; cbn.
  - rewrite app_nil_r. now destruct o.
  - rewrite IH. cbn. now rewrite <- app_assoc.
Qed.

Lemma appendZ_nil (st : State) : appendZ [] st = st.
Proof. destruct st as [[tri sh so tg [[[] []] |] li pr] tr]; reflexivity. Qed.

Lemma appendZ_app (l1 l2 : list ZOption.t) (st : State) :
  appendZ l2 (appendZ l1 st) = appendZ (l1 ++ l2) st.
Proof.
  destruct st as [[tri sh so tg [i |] li pr] tr]; [| reflexivity].
  unfold appendZ. cbn. unfold with_options. cbn.
  now rewrite foldl_app.
Qed.

Lemma appendZ_ldInfo (l : list ZOption.t) (st : State) (i : MCLDInfo) :
  mLDInfo (this st) = Some i ->
  mLDInfo (this (appendZ l st))
  = Some (mkMCLDInfo
            (mkGeneralOptions (bsymbolic (options i)) (dyld (options i))
               (sysroot (options i)) (zOptions (options i) ++ l)
               (directories (options i)))
            (scripts i)).
Proof.
  intros Hi. unfold appendZ. cbn. rewrite Hi. cbn.
  unfold with_options. now rewrite foldl_addZOption.
Qed.

Lemma addZOption_run (z : ZOption.t) (st : State) (i : MCLDInfo) :
  mLDInfo (this st) = Some i ->
  LinkerConfig.addZOption z st = Some (tt, appendZ [z] st).
Proof.
  intros Hi. unfold LinkerConfig.addZOption.
  rewrite (modifyLDInfo_Some _ st i Hi). unfold appendZ. now rewrite Hi.
Qed.

(** One test of [setZOption]: the options it hands over carry the page
    size of the local [option], which the test does not change. *)
Lemma run_step_run (pOptions : Z) (s : Step) (o : ZOption.t) (st : State)
    (i : MCLDInfo) :
  mLDInfo (this st) = Some i ->
  exists o' : ZOption.t,
    run_step pOptions s o st
    = Some (o', appendZ (map (fun k => ZOption.mk k (ZOption.pageSize o))
                             (step_kinds pOptions s)) st)
    /\ ZOption.pageSize o' = ZOption.pageSize o.
Proof.
  intros Hi. destruct s as [mask on off | mask on]; cbn;
    unfold either_bit, when_bit; destruct (has_bit pOptions mask); cbn;
    try (rewrite (bind_Some _ _ _ _ _ (addZOption_run _ st i Hi));
         eexists; split; reflexivity).
  exists o. rewrite appendZ_nil. split; reflexivity.
Qed.

Lemma run_steps_run {A : Type} (pOptions : Z) (l : list Step)
    (rest : ZOption.t -> M A) (o : ZOption.t) (st : State) (i : MCLDInfo) :
  mLDInfo (this st) = Some i ->
  exists o' : ZOption.t,
    run_steps pOptions l rest o st
    = rest o' (appendZ (map (fun k => ZOption.mk k (ZOption.pageSize o))
                            (flat_map (step_kinds pOptions) l)) st)
    /\ ZOption.pageSize o' = ZOption.pageSize o.
Proof.
  revert o st i. induction l as [| s l IH]; intros o st i Hi.
  - exists o. cbn. rewrite appendZ_nil. split; reflexivity.
  - destruct (run_step_run pOptions s o st i Hi) as (o1 & Hstep & Hsize1).
    destruct (IH o1 _ _
                (appendZ_ldInfo
                   (map (fun k => ZOption.mk k (ZOption.pageSize o))
                        (step_kinds pOptions s)) st i Hi))
      as (o2 & Hrest & Hsize2).
    exists o2. split; [| congruence].
    cbn [run_steps]. rewrite (bind_Some _ _ _ _ _ Hstep), Hrest.
    rewrite appendZ_app, Hsize1. cbn [flat_map]. now rewrite map_app.
Qed.

Lemma count_kind_app (k : ZOption.Kind) (l1 l2 : list ZOption.t) :
  count_kind k (l1 ++ l2) = (count_kind k l1 + count_kind k l2)%nat.
Proof. unfold count_kind. now rewrite filter_app, length_app. Qed.

(** What one test adds to the count of a kind. *)
Lemma count_kind_step (k : ZOption.Kind) (pOptions ps : Z) (s : Step) :
  count_kind k (map (fun k' => ZOption.mk k' ps) (step_kinds pOptions s))
  = match s with
    | Either mask on off =>
        ((if decide (on = k)
          then if has_bit pOptions mask then 1 else 0 else 0)
         + (if decide (off = k)
            then if has_bit pOptions mask then 0 else 1 else 0))%nat
    | When mask on =>
        if decide (on = k)
        then if has_bit pOptions mask then 1%nat else 0%nat else 0%nat
    end.
Proof.
  unfold count_kind.
  destruct s as [mask on off | mask on]; cbn;
    destruct (has_bit pOptions mask); cbn;
    rewrite ?filter_cons, ?filter_nil; cbn;
    repeat case_decide; cbn; try reflexivity; congruence.
Qed.

Lemma count_kind_steps (k : ZOption.Kind) (pOptions ps : Z) (l : list Step) :
  count_kind k (map (fun k' => ZOption.mk k' ps)
                    (flat_map (step_kinds pOptions) l))
  = foldr (fun s n =>
             (count_kind k (map (fun k' => ZOption.mk k' ps)
                                (step_kinds pOptions s)) + n)%nat)
          0%nat l.
Proof.
  induction l as [| s l IH]; [reflexivity |].
  cbn [flat_map foldr]. now rewrite map_app, count_kind_app, IH.
Qed.

(** Count a kind in what the tests of [steps] add. *)
Ltac count_kinds :=
  rewrite ?count_kind_steps; unfold steps; cbn [foldr];
  rewrite ?count_kind_step; cbv -[has_bit];
  try match goal with
      | |- context [if has_bit ?p ?m then _ else _] => destruct (has_bit p m)
      end;
  try split; reflexivity.

Section WithHeaders.
Context `{McldLibrary} `{ZOptionEnum}.

Lemma setZOption_steps (pOptions : Z) (st : State) :
  setZOption pOptions st
  = run_steps pOptions steps (fun _ => skip) ZOption_ctor st.
Proof. reflexivity. Qed.

(** The options [setZOption] hands to [addZOption], in order. *)
Lemma setZOption_run (pOptions : Z) (st : State) (i : MCLDInfo) :
  mLDInfo (this st) = Some i ->
  setZOption pOptions st
  = Some (tt,
          appendZ (map (fun k => ZOption.mk k (ZOption.pageSize ZOption_ctor))
                       (flat_map (step_kinds pOptions) steps)) st).
Proof.
  intros Hi. rewrite setZOption_steps.
  destruct (run_steps_run pOptions steps (fun _ => skip) ZOption_ctor st i Hi)
    as (o' & Hrun & _).
  exact Hrun.
Qed.

(** C10: what [setZOption] appends.  On a configuration with linker
    information, [setZOption(pOptions)] returns, reports nothing and
    appends to the options handed to [addZOption] a sequence in which:
    for each of the pairs (CombReloc, NoCombReloc), (ExecStack,
    NoExecStack), (Relro, NoRelro) and (Lazy, Now) exactly one of the two
    stands, once, the first when the bit of the pair is set in [pOptions]
    and the second when it is clear; each of Defs, InitFirst, InterPose,
    LoadFltr, MulDefs, NoCopyReloc, NoDefaultLib, NoDelete, NoDLOpen,
    NoDump and Origin stands once when its bit is set and not at all when
    it is clear; and nothing of another kind stands. *)
Theorem setZOption_appends (pOptions : Z) (st : State) (i : MCLDInfo) :
  mLDInfo (this st) = Some i ->
  exists (st' : State) (i' : MCLDInfo) (added : list ZOption.t),
    setZOption pOptions st = Some (tt, st')
    /\ mLDInfo (this st') = Some i'
    /\ trace st' = trace st
    /\ zOptions (options i') = zOptions (options i) ++ added
    /\ Forall (fun '(mask, on, off) =>
                 if has_bit pOptions mask
                 then count_kind on added = 1%nat
                      /\ count_kind off added = 0%nat
                 else count_kind on added = 0%nat
                      /\ count_kind off added = 1%nat) paired
    /\ Forall (fun '(mask, on) =>
                 count_kind on added
                 = if has_bit pOptions mask then 1%nat else 0%nat) single
    /\ count_kind ZOption.Unknown added = 0%nat.
Proof.
  intros Hi. rewrite (setZOption_run pOptions st i Hi).
  eexists; eexists; eexists. split; [reflexivity |].
  split; [apply (appendZ_ldInfo _ st i Hi) |].
  split; [reflexivity |]. split; [reflexivity |].
  split; [| split].
  - repeat (apply Forall_cons; split); try apply Forall_nil; count_kinds.
  - repeat (apply Forall_cons; split); try apply Forall_nil; count_kinds.
  - count_kinds.
Qed.

End WithHeaders.

(** ** Destruction *)

Lemma dtor_run (st : State) (printer : TextDiagnosticPrinter) :
  mDiagPrinter (this st) = Some printer ->
  LinkerConfig_dtor st
  = Some (tt, mkState (this st) (trace st ++ dtor_trace (this st) printer)).
Proof.
  destruct st as [[tri sh so tg ld li pr] tr]. cbn. intros ->.
  unfold LinkerConfig_dtor, dtor_trace, delete_owned, delete_ptr. run_M.
  destruct ld as [i |], (getNumErrors printer =? 0)%N, li as [| p | p];
    cbn; rewrite <- ?app_assoc; reflexivity.
Qed.

(** Decide an [all_before] on a list that is written out. *)
Ltac solve_all_before :=
  let i := fresh "i" in
  let j := fresh "j" in
  let Hi := fresh "Hi" in
  let Hj := fresh "Hj" in
  intros i j Hi Hj;
  repeat (destruct i as [| i]; cbn in Hi; try discriminate Hi);
  repeat (destruct j as [| j]; cbn in Hj; try discriminate Hj);
  lia.

Ltac solve_elem_of :=
  rewrite ?elem_of_cons, ?elem_of_nil; intuition (congruence || discriminate).

(** C4: the order of destruction.  On a configuration with a printer, the
    destructor returns, and among the effects it adds: the interrupt
    handlers are run if and only if the printer has counted an error; when
    they are run, it is before the printer is finished; the printer is
    always finished; and it is finished before the line info and the
    printer itself are deleted. *)
Theorem dtor_order (st : State) (printer : TextDiagnosticPrinter) :
  mDiagPrinter (this st) = Some printer ->
  exists added : list Effect,
    LinkerConfig_dtor st = Some (tt, mkState (this st) (trace st ++ added))
    /\ (RunInterruptHandlers ∈ added <-> getNumErrors printer <> 0%N)
    /\ all_before RunInterruptHandlers Finish added
    /\ Finish ∈ added
    /\ all_before Finish (Delete DiagLineInfo) added
    /\ all_before Finish (Delete DiagPrinter) added
    /\ Delete DiagPrinter ∈ added
    /\ (Delete DiagLineInfo ∈ added <-> mDiagLineInfo (this st) <> NULL).
Proof.
  intros Hprinter. exists (dtor_trace (this st) printer).
  split; [now apply dtor_run |].
  unfold dtor_trace.
  destruct (N.eqb_spec (getNumErrors printer) 0) as [Hzero | Hnonzero],
    (Z.eqb_spec (mDiagLineInfo (this st)) NULL) as [Hnull | Hline],
    (mLDInfo (this st)) as [i |];
    cbn; repeat split;
    try solve_all_before; try solve [solve_elem_of].
Qed.

(** The linker information, which is no diagnostic object, is deleted
    first of all, so before the printer is finished. *)
Lemma dtor_deletes_LDInfo_first (st : State)
    (printer : TextDiagnosticPrinter) (i : MCLDInfo) :
  mDiagPrinter (this st) = Some printer ->
  mLDInfo (this st) = Some i ->
  exists rest : list Effect,
    LinkerConfig_dtor st
    = Some (tt, mkState (this st) (trace st ++ Delete LDInfo :: rest))
    /\ Finish ∈ rest.
Proof.
  intros Hprinter Hinfo. rewrite (dtor_run st printer Hprinter).
  unfold dtor_trace. rewrite Hinfo. cbn.
  eexists. split; [reflexivity |].
  destruct (getNumErrors printer =? 0)%N; cbn; solve_elem_of.
Qed.

(** ** Construction *)

Section WithMcld.
Context `{McldLibrary}.

(** With a target for the triple, the constructor returns an object with
    linker information and a printer, which is what the other methods and
    the destructor dereference. *)
Lemma ctor_supported (pTriple : string) (before : list Effect) :
  (lookupTarget pTriple).1 <> NULL ->
  exists (st : State) (i : MCLDInfo) (printer : TextDiagnosticPrinter),
    LinkerConfig_ctor pTriple before = Some (tt, st)
    /\ mTriple (this st) = pTriple
    /\ mTarget (this st) = (lookupTarget pTriple).1
    /\ mLDInfo (this st) = Some i
    /\ mDiagPrinter (this st) = Some printer
    /\ trace st = before ++ [InitializeDiagnosticEngine].
Proof.
  intros Hsupported.
  unfold LinkerConfig_ctor, initializeTarget, initializeLDInfo,
    initializeDiagnostic, ldInfo.
  run_M.
  destruct (lookupTarget pTriple) as [target error]. cbn in *.
  destruct target as [| p | p]; [now contradiction Hsupported | |];
    cbn; eexists; eexists; eexists; repeat split.
Qed.

(** Without one, the constructor logs the error of [initializeTarget],
    drops its result, and then calls through the null [mTarget]. *)
Lemma ctor_unsupported (pTriple : string) (before : list Effect) :
  (lookupTarget pTriple).1 = NULL ->
  LinkerConfig_ctor pTriple before = None.
Proof.
  intros Hnull.
  unfold LinkerConfig_ctor, initializeTarget, initializeLDInfo,
    initializeDiagnostic, ldInfo.
  run_M.
  destruct (lookupTarget pTriple) as [target error]. cbn in *.
  now subst target.
Qed.

End WithMcld.

(** ** Worked examples, in the small world of [Sample] *)

Example ctor_then_setSysRoot :
  match @LinkerConfig_ctor Sample.library Sample.triple [] with
  | Some (_, st) => setSysRoot "/sdk" st
  | None => None
  end
  = Some (tt, mkState (Sample.config 0) [InitializeDiagnosticEngine]).
Proof. vm_compute. reflexivity. Qed.

Example initializeTarget_unsupported :
  @initializeTarget Sample.library (mkState (LinkerConfig_init "mips") [])
  = Some (false,
          mkState (LinkerConfig_init "mips")
            [ALOGE ("Cannot initialize mcld::Target for given triple 'mips'!"
                    +:+ " (No available targets are compatible with this"
                    +:+ " triple.)" +:+ newline)]).
Proof. vm_compute. reflexivity. Qed.

Example setZOption_defs_lazy :
  kinds_after
    (@setZOption Sample.library Sample.bits (2 + 8192) (Sample.state 0))
  = Some [ZOption.NoCombReloc; ZOption.Defs; ZOption.NoExecStack;
          ZOption.NoRelro; ZOption.Lazy].
Proof. vm_compute. reflexivity. Qed.

Example setZOption_none :
  kinds_after (@setZOption Sample.library Sample.bits 0 (Sample.state 0))
  = Some [ZOption.NoCombReloc; ZOption.NoExecStack; ZOption.NoRelro;
          ZOption.Now].
Proof. vm_compute. reflexivity. Qed.

Example addSearchDir_in_sysroot :
  let r := @addSearchDir Sample.library "=/lib" (Sample.state 0) in
  directories_after r = Some [mkMCLDDirectory "=/lib" "/sdk/lib" true]
  /\ trace_after r = Some [].
Proof. split; vm_compute; reflexivity. Qed.

Example addSearchDir_missing :
  @addSearchDir Sample.library "/nowhere" (Sample.state 0)
  = Some (tt, mkState (Sample.config 0)
                [Warning warn_cannot_open_search_dir ["/nowhere"]]).
Proof. vm_compute. reflexivity. Qed.

Example addSearchDir_file :
  @addSearchDir Sample.library "/sdk/lib/libc.so" (Sample.state 0)
  = Some (tt, mkState (Sample.config 0)
                [Warning warn_cannot_open_search_dir ["/sdk/lib/libc.so"]]).
Proof. vm_compute. reflexivity. Qed.

Example addWrap_twice :
  let r := (addWrap "f" ≫= fun _ => addWrap "f") (Sample.state 0) in
  trace_after r = Some [Warning rewrap ["f"; "__wrap_f"];
                        Warning rewrap ["f"; "__real_f"]]
  /\ renamed_after "f" r = Some "__wrap_f"
  /\ renamed_after "__real_f" r = Some "f".
Proof. repeat split; vm_compute; reflexivity. Qed.

Example addPortable_real_f :
  addPortable "__real_f" (Sample.state 0) = Some (tt, Sample.renamed).
Proof. vm_compute. reflexivity. Qed.

Example dtor_after_errors :
  trace_after (LinkerConfig_dtor (Sample.state 2))
  = Some [Delete LDInfo; RunInterruptHandlers; Finish;
          Delete DiagLineInfo; Delete DiagPrinter].
Proof. vm_compute. reflexivity. Qed.

Example dtor_without_errors :
  trace_after (LinkerConfig_dtor (Sample.state 0))
  = Some [Delete LDInfo; Finish; Delete DiagLineInfo; Delete DiagPrinter].
Proof. vm_compute. reflexivity. Qed.

(** C6, as stated, fails: in the state [addPortable("__real_f")] leaves,
    [f] has no entry in the rename table, and [addWrap("f")] raises a
    warning all the same, for the entry of [__real_f]. *)
Lemma rename_warns_without_prior_entry :
  addPortable "__real_f" (Sample.state 0) = Some (tt, Sample.renamed)
  /\ renamed_after "f" (Some (tt, Sample.renamed)) = None
  /\ trace Sample.renamed = []
  /\ trace_after (addWrap "f" Sample.renamed)
     = Some [Warning rewrap ["f"; "__real_f"]].
Proof. repeat split; vm_compute; reflexivity. Qed.

Lemma initializeTarget_fails_closed_witness :
  let st := mkState (LinkerConfig_init "mips") [] in
  let st2 := mkState (LinkerConfig_init Sample.triple) [] in
  ((@lookupTarget Sample.library (mTriple (this st))).1 = NULL
   /\ exists (st' : State) (msg : string),
        @initializeTarget Sample.library st = Some (false, st')
        /\ mTarget (this st') = NULL
        /\ trace st' = trace st ++ [ALOGE msg]
        /\ occurs_in (c_str "mips") msg)
  /\ ((@lookupTarget Sample.library (mTriple (this st2))).1 <> NULL
      /\ exists st' : State,
           @initializeTarget Sample.library st2 = Some (true, st')
           /\ mTarget (this st') = 4096
           /\ trace st' = []).
Proof.
  intros st st2. split.
  - split; [reflexivity |].
    destruct (proj1 (@initializeTarget_fails_closed Sample.library st)
                eq_refl)
      as (st' & msg & Hrun & Htarget & Htrace & Htriple & _).
    exists st', msg. repeat split; assumption.
  - assert (Hsupported :
              (@lookupTarget Sample.library (mTriple (this st2))).1 <> NULL)
      by (vm_compute; discriminate).
    split; [exact Hsupported |].
    destruct (proj2 (@initializeTarget_fails_closed Sample.library st2)
                Hsupported)
      as (st' & Hrun & Htarget & _ & Htrace).
    exists st'. repeat split; assumption.
Defined.

Lemma dtor_order_witness :
  mDiagPrinter (this (Sample.state 2)) = Some (mkTextDiagnosticPrinter 2)
  /\ exists added : list Effect,
       LinkerConfig_dtor (Sample.state 2)
       = Some (tt, mkState (Sample.config 2) ([] ++ added))
       /\ RunInterruptHandlers ∈ added
       /\ all_before RunInterruptHandlers Finish added
       /\ all_before Finish (Delete DiagPrinter) added.
Proof.
  split; [reflexivity |].
  destruct (dtor_order (Sample.state 2) (mkTextDiagnosticPrinter 2) eq_refl)
    as (added & Hrun & Hiff & Hhandlers & _ & _ & Hprinter & _).
  exists added. split; [exact Hrun |].
  split; [apply Hiff; discriminate |]. split; assumption.
Defined.

Lemma rename_rule_installs_witness :
  mLDInfo (this (Sample.state 0)) = Some Sample.info
  /\ exists (st' : State) (i' : MCLDInfo),
       addWrap "f" (Sample.state 0) = Some (tt, st')
       /\ mLDInfo (this st') = Some i'
       /\ renameMap (scripts i') !! "f" = Some "__wrap_f"
       /\ renameMap (scripts i') !! "__real_f" = Some "f".
Proof.
  split; [reflexivity |].
  destruct (rename_rule_installs Wrap "f" (Sample.state 0) _ eq_refl)
    as (st' & i' & Hrun & Hinfo & Hwrap & Hreal & _).
  exists st', i'. repeat split; assumption.
Defined.

Lemma rename_collision_warns_witness :
  mLDInfo (this Sample.renamed) = Some Sample.renamed_info
  /\ exists (st' : State) (i' : MCLDInfo),
       addPortable "__real_f" Sample.renamed = Some (tt, st')
       /\ renameMap (scripts i') !! "__real_f" = Some "__real_f_portable"
       /\ Warning rewrap ["__real_f"; "__real_f_portable"] ∈ trace st'.
Proof.
  split; [reflexivity |].
  destruct (rename_collision_warns Portable "__real_f" Sample.renamed
              _ eq_refl)
    as (st' & i' & Hrun & Hinfo & Hnew & _ & Hwarn & _).
  exists st', i'. split; [exact Hrun |]. split; [exact Hnew |].
  apply Hwarn. vm_compute. eexists. reflexivity.
Defined.

Lemma addSearchDir_adds_iff_directory_witness :
  mLDInfo (this (Sample.state 0)) = Some Sample.info
  /\ exists (st' : State) (i' : MCLDInfo),
       @addSearchDir Sample.library "=/lib" (Sample.state 0) = Some (tt, st')
       /\ mLDInfo (this st') = Some i'
       /\ directories (options i')
          = [mkMCLDDirectory "=/lib" "/sdk/lib" true]
       /\ trace st' = [].
Proof.
  split; [reflexivity |].
  destruct (@addSearchDir_adds_iff_directory Sample.library "=/lib"
              (Sample.state 0) _ eq_refl)
    as (st' & i' & Hrun & Hinfo & Hadded & _).
  exists st', i'. split; [exact Hrun |]. split; [exact Hinfo |].
  apply Hadded. vm_compute. reflexivity.
Defined.

Lemma setZOption_appends_witness :
  mLDInfo (this (Sample.state 0)) = Some Sample.info
  /\ exists (st' : State) (i' : MCLDInfo) (added : list ZOption.t),
       @setZOption Sample.library Sample.bits (2 + 8192) (Sample.state 0)
       = Some (tt, st')
       /\ zOptions (options i') = [] ++ added
       /\ count_kind ZOption.Defs added = 1%nat
       /\ count_kind ZOption.Lazy added = 1%nat
       /\ count_kind ZOption.Now added = 0%nat
       /\ count_kind ZOption.Origin added = 0%nat.
Proof.
  split; [reflexivity |].
  destruct (@setZOption_appends Sample.library Sample.bits (2 + 8192)
              (Sample.state 0) _ eq_refl)
    as (st' & i' & added & Hrun & Hinfo & _ & Hadded & Hpaired & Hsingle & _).
  exists st', i', added. split; [exact Hrun |]. split; [exact Hadded |].
  pose proof (proj1 (Forall_forall _ _) Hsingle) as Hone.
  pose proof (proj1 (Forall_forall _ _) Hpaired) as Htwo.
  assert (Hlazy : count_kind ZOption.Lazy added = 1%nat
                  /\ count_kind ZOption.Now added = 0%nat)
    by (apply (Htwo (8192, ZOption.Lazy, ZOption.Now));
        vm_compute; repeat constructor).
  split; [apply (Hone (2, ZOption.Defs)); vm_compute; repeat constructor |].
  split; [apply Hlazy |]. split; [apply Hlazy |].
  apply (Hone (16384, ZOption.Origin)). vm_compute. repeat constructor.
Defined.

End LinkerConfigFacts.

(** ** [Script]: the error slot over several calls *)

Module ScriptMore.

Import ScriptStatus Script Usage ScriptFacts.

Section WithBccHeader.
Context `{BccHeader}.

Lemma setErrors_slot (errors : list BCCenum) (s : Script) :
  mErrorCode (setErrors errors s)
  = if mErrorCode s =? BCC_NO_ERROR then first_error errors
    else mErrorCode s.
Proof.
  revert s. induction errors as [| e errors IH]; intros s.
  - cbn. destruct (Z.eqb_spec (mErrorCode s) BCC_NO_ERROR); congruence.
  - change (setErrors (e :: errors) s) with (setErrors errors (setError e s)).
    rewrite IH. cbn [first_error].
    destruct (Z.eqb_spec (mErrorCode s) BCC_NO_ERROR) as [Hclear | Hset].
    + rewrite (setError_clear s e Hclear).
      destruct (Z.eqb_spec e BCC_NO_ERROR); reflexivity.
    + rewrite (setError_latched s e Hset).
      destruct (Z.eqb_spec (mErrorCode s) BCC_NO_ERROR); congruence.
Qed.

(** X1: whatever errors are set and in whatever number, [getError()]
    returns the first of them that is a real error: on a fresh [Script]
    the first code of the sequence other than [BCC_NO_ERROR]
    ([BCC_NO_ERROR] when there is none), and on a [Script] whose slot
    already holds an error, that error. *)
Theorem getError_after_setErrors (errors : list BCCenum) :
  (forall junk : Indeterminate,
     (getError (setErrors errors (Script_ctor junk))).1 = first_error errors)
  /\ (forall s : Script,
        (getError (setErrors errors s)).1
        = if mErrorCode s =? BCC_NO_ERROR then first_error errors
          else mErrorCode s).
Proof.
  split.
  - intros junk. cbn [getError fst]. rewrite setErrors_slot. cbn.
    now rewrite Z.eqb_refl.
  - intros s. cbn [getError fst]. apply setErrors_slot.
Qed.

(** X2: a read separates what came before it from what comes after.
    Whatever the slot held and whatever errors were set before a
    [getError()], the next [getError()] reports only the errors set after
    the first one: the first real error among them, or [BCC_NO_ERROR]. *)
Theorem getError_forgets_earlier_errors (s : Script)
    (before after : list BCCenum) :
  let first := getError (setErrors before s) in
  let second := getError (setErrors after first.2) in
  second.1 = first_error after
  /\ mErrorCode second.2 = BCC_NO_ERROR.
Proof.
  intros first second. subst first second. split; [| reflexivity].
  cbn [getError fst snd]. rewrite setErrors_slot. cbn.
  now rewrite Z.eqb_refl.
Qed.

End WithBccHeader.

Example errors_between_reads :
  let s := @Script_ctor sample_header sample_junk in
  let first := @getError sample_header
                 (@setErrors sample_header [0; 1282; 1281] s) in
  let second := @getError sample_header
                  (@setErrors sample_header [0; 1285; 0] first.2) in
  let third := @getError sample_header second.2 in
  first.1 = 1282 /\ second.1 = 1285 /\ third.1 = 0.
Proof. repeat split. Qed.

End ScriptMore.

(** ** [LinkerConfig]: construction, sequences of calls, destruction *)

Module LinkerConfigMore.

Import mcld LinkerConfig Notions Usage LinkerConfigFacts.

(** *** Construction *)

Section WithMcld.
Context `{McldLibrary}.

(** X3: with a target for the triple, the constructor returns, logs no
    error, and leaves every member set: the triple, the target of the
    registry (not null), shared mode off, an empty SONAME, fresh linker
    information made for the triple, the line info the target makes, and a
    fresh printer.  The object is usable: no later method and not the
    destructor meets a null pointer in it. *)
Theorem ctor_establishes (pTriple : string) (before : list Effect) :
  (lookupTarget pTriple).1 <> NULL ->
  exists st : State,
    LinkerConfig_ctor pTriple before = Some (tt, st)
    /\ usable (this st)
    /\ this st
       = mkLinkerConfig pTriple false EmptyString (lookupTarget pTriple).1
           (Some (MCLDInfo_ctor pTriple 1 32))
           (createDiagnosticLineInfo (lookupTarget pTriple).1 pTriple)
           (Some (TextDiagnosticPrinter_ctor (MCLDInfo_ctor pTriple 1 32)))
    /\ trace st = before ++ [InitializeDiagnosticEngine].
Proof.
  intros Hsupported.
  unfold LinkerConfig_ctor, initializeTarget, initializeLDInfo,
    initializeDiagnostic, ldInfo, usable.
  run_M.
  destruct (lookupTarget pTriple) as [target error]. cbn in *.
  destruct target as [| p | p]; [now contradiction Hsupported | |];
    cbn; eexists; (split; [reflexivity |]); cbn; repeat split; eauto.
Qed.

(** X4: without a target for the triple, the constructor does not return
    an object.  [initializeTarget] logs its error and returns [false]; the
    constructor drops that result and goes on: [initializeLDInfo] still
    makes the linker information, and [initializeDiagnostic] then calls
    through [mTarget], which is null. *)
Theorem ctor_ignores_failed_target (pTriple : string)
    (before : list Effect) :
  (lookupTarget pTriple).1 = NULL ->
  LinkerConfig_ctor pTriple before = None
  /\ exists (st : State) (msg : string),
       (initializeTarget;; initializeLDInfo)
         (mkState (LinkerConfig_init pTriple) before)
       = Some (true, st)
       /\ mTarget (this st) = NULL
       /\ mLDInfo (this st) = Some (MCLDInfo_ctor pTriple 1 32)
       /\ trace st = before ++ [ALOGE msg]
       /\ occurs_in (c_str pTriple) msg
       /\ initializeDiagnostic st = None.
Proof.
  intros Hnull.
  unfold LinkerConfig_ctor, initializeTarget, initializeLDInfo,
    initializeDiagnostic, ldInfo.
  run_M.
  destruct (lookupTarget pTriple) as [target error]. cbn in *.
  subst target. cbn. split; [reflexivity |].
  eexists; eexists. split; [reflexivity |]. cbn.
  repeat split.
  exists "Cannot initialize mcld::Target for given triple '".
  eexists. reflexivity.
Qed.

(** X5: [initializeLDInfo] never replaces linker information.  It always
    returns and always leaves [mLDInfo] set; it returns [true] exactly when
    [mLDInfo] was null, and then sets it to fresh information for the
    triple without logging; when [mLDInfo] was set it leaves the object as
    it was and logs one error line.  So a second call in a row always
    returns [false]. *)
Theorem initializeLDInfo_guards (st : State) :
  exists (made : bool) (st' : State),
    initializeLDInfo st = Some (made, st')
    /\ is_Some (mLDInfo (this st'))
    /\ (made = true <-> mLDInfo (this st) = None)
    /\ (forall i : MCLDInfo,
          mLDInfo (this st) = Some i ->
          this st' = this st
          /\ exists msg : string,
               trace st' = trace st ++ [ALOGE msg]
               /\ occurs_in (c_str (mTriple (this st))) msg)
    /\ (mLDInfo (this st) = None ->
        mLDInfo (this st') = Some (MCLDInfo_ctor (mTriple (this st)) 1 32)
        /\ trace st' = trace st)
    /\ exists st'' : State, initializeLDInfo st' = Some (false, st'').
Proof.
  destruct st as [[tri sh so tg ld li pr] tr].
  unfold initializeLDInfo. run_M.
  destruct ld as [i |]; cbn; eexists; eexists;
    (split; [reflexivity |]); cbn.
  - split; [eauto |]. split; [split; discriminate |].
    split; [| split; [discriminate | eauto]].
    intros i' _. split; [reflexivity |].
    eexists. split; [reflexivity |].
    exists "Cannot initialize mcld::MCLDInfo for given triple '".
    eexists. reflexivity.
  - split; [eauto |]. split; [split; reflexivity |].
    split; [discriminate |]. split; [split; reflexivity | eauto].
Qed.

End WithMcld.

(** *** Any sequence of calls *)

Section WithHeaders.
Context `{McldLibrary} `{ZOptionEnum}.

(** One call on a usable configuration returns, leaves it usable, assigns
    none of the members of its identity, and adds only warnings. *)
Lemma call_keeps_usable (k : Call) (st : State) :
  usable (this st) ->
  exists (st' : State) (added : list Effect),
    call k st = Some (tt, st')
    /\ usable (this st')
    /\ same_identity (this st) (this st')
    /\ trace st' = trace st ++ added
    /\ Forall is_Warning added.
Proof.
  destruct st as [[tri sh so tg ld li pr] tr].
  unfold usable, same_identity. cbn. intros [[i ->] [printer ->]].
  destruct k as [b | b | so' | d | r | p | X | X | P]; cbn [call].
  - exists (mkState (mkLinkerConfig tri b so tg (Some i) li (Some printer)) tr), [].
    rewrite app_nil_r. repeat split; eauto.
  - unfold setBsymbolic. erewrite modifyLDInfo_Some by reflexivity.
    eexists; exists []. rewrite app_nil_r. cbn. repeat split; eauto.
  - exists (mkState (mkLinkerConfig tri sh so' tg (Some i) li (Some printer)) tr), [].
    rewrite app_nil_r. repeat split; eauto.
  - unfold setDyld. erewrite modifyLDInfo_Some by reflexivity.
    eexists; exists []. rewrite app_nil_r. cbn. repeat split; eauto.
  - unfold setSysRoot. erewrite modifyLDInfo_Some by reflexivity.
    eexists; exists []. rewrite app_nil_r. cbn. repeat split; eauto.
  - erewrite setZOption_run by reflexivity.
    eexists; exists []. rewrite app_nil_r. cbn. repeat split; eauto.
  - change (addWrap X) with (register Wrap X).
    rewrite register_add_rename. erewrite add_rename_run by reflexivity.
    eexists; eexists. split; [reflexivity |]. cbn.
    repeat split; eauto. unfold collisions.
    repeat case_match; repeat constructor.
  - change (addPortable X) with (register Portable X).
    rewrite register_add_rename. erewrite add_rename_run by reflexivity.
    eexists; eexists. split; [reflexivity |]. cbn.
    repeat split; eauto. unfold collisions.
    repeat case_match; repeat constructor.
  - unfold addSearchDir, warning, modifyLDInfo, ldInfo. run_M.
    destruct (isInSysroot (MCLDDirectory_ctor P)); cbn;
      match goal with
      | |- context [fs_exists ?q && fs_is_directory ?q] =>
          destruct (fs_exists q && fs_is_directory q)
      end;
      cbn; eexists; eexists; (split; [reflexivity |]); cbn;
      repeat split; eauto; try (now rewrite app_nil_r);
      repeat constructor.
Qed.

(** X6: no sequence of configuration calls can break a configuration.  On
    a usable configuration (as the constructor leaves it), any sequence of
    [setShared], [setBsymbolic], [setSOName], [setDyld], [setSysRoot],
    [setZOption], [addWrap], [addPortable] and [addSearchDir] calls, with
    any arguments, returns; the configuration is still usable; its triple,
    target, line info and printer are the ones it had; what the calls add
    to the effects is warnings only, after the effects already there; and
    the destructor then returns as well. *)
Theorem calls_keep_usable (l : list Call) (st : State) :
  usable (this st) ->
  exists (st' : State) (added : list Effect),
    calls l st = Some (tt, st')
    /\ usable (this st')
    /\ same_identity (this st) (this st')
    /\ trace st' = trace st ++ added
    /\ Forall is_Warning added
    /\ is_Some (LinkerConfig_dtor st').
Proof.
  revert st. induction l as [| k l IH]; intros st Husable.
  - exists st, []. cbn. rewrite app_nil_r.
    split; [reflexivity |]. split; [exact Husable |].
    split; [repeat split |]. split; [reflexivity |]. split; [constructor |].
    destruct Husable as [_ [printer Hprinter]].
    rewrite (dtor_run st printer Hprinter). eauto.
  - destruct (call_keeps_usable k st Husable)
      as (st1 & added1 & Hcall & Husable1 & Hsame1 & Htrace1 & Hwarn1).
    destruct (IH st1 Husable1)
      as (st2 & added2 & Hcalls & Husable2 & Hsame2 & Htrace2 & Hwarn2
          & Hdtor).
    exists st2, (added1 ++ added2). cbn [calls].
    rewrite (bind_Some _ _ _ _ _ Hcall).
    split; [exact Hcalls |]. split; [exact Husable2 |].
    split.
    { destruct Hsame1 as (? & ? & ? & ?), Hsame2 as (? & ? & ? & ?).
      repeat split; congruence. }
    split; [now rewrite Htrace2, Htrace1, app_assoc |].
    split; [now apply Forall_app | exact Hdtor].
Qed.

End WithHeaders.

(** *** Destruction *)

(** X7: what the destructor releases, and when.  On a configuration with
    a printer (null linker information and a null line info are
    tolerated), the destructor returns and leaves the members as they
    were; no effect it adds occurs twice, so nothing is deleted twice; the
    linker information is deleted exactly when it is not null, and then
    before the handlers are run and before the printer is finished; and
    the deletion of the printer is the last effect. *)
Theorem dtor_releases_each_once (st : State)
    (printer : TextDiagnosticPrinter) :
  mDiagPrinter (this st) = Some printer ->
  exists added : list Effect,
    LinkerConfig_dtor st = Some (tt, mkState (this st) (trace st ++ added))
    /\ NoDup added
    /\ last added = Some (Delete DiagPrinter)
    /\ (Delete LDInfo ∈ added <-> is_Some (mLDInfo (this st)))
    /\ all_before (Delete LDInfo) RunInterruptHandlers added
    /\ all_before (Delete LDInfo) Finish added
    /\ (2 <= length added <= 5)%nat.
Proof.
  intros Hprinter. exists (dtor_trace (this st) printer).
  split; [now apply dtor_run |].
  unfold dtor_trace.
  destruct (getNumErrors printer =? 0)%N,
    (mDiagLineInfo (this st) =? NULL),
    (mLDInfo (this st)) as [i |];
    cbn; repeat split;
    try solve_all_before; try lia;
    try solve [repeat (apply NoDup_cons_2; [solve_elem_of |]);
               apply NoDup_nil_2];
    try solve [solve_elem_of]; eauto;
    try (intros [? ?]; discriminate).
Qed.

(** *** The [-z] options *)

Lemma step_kinds_sublist (pOptions : Z) (l : list Step) :
  flat_map (step_kinds pOptions) l `sublist_of` flat_map step_all_kinds l.
Proof.
  induction l as [| s l IH]; cbn [flat_map]; [constructor |].
  apply sublist_app; [| exact IH].
  destruct s as [mask on off | mask on]; cbn;
    destruct (has_bit pOptions mask); repeat constructor.
Qed.

Lemma step_kinds_length (pOptions : Z) (l : list Step) :
  (length (List.filter (fun s => if s is Either _ _ _ then true else false) l)
   <= length (flat_map (step_kinds pOptions) l) <= length l)%nat.
Proof.
  induction l as [| s l IH]; cbn [flat_map List.filter]; [cbn; lia |].
  rewrite length_app.
  destruct s as [mask on off | mask on]; cbn;
    destruct (has_bit pOptions mask); cbn; lia.
Qed.

Section WithHeaders.
Context `{McldLibrary} `{ZOptionEnum}.

(** X8: the shape of what [setZOption] appends.  On a configuration with
    linker information, whatever the mask, the options appended come in
    the fixed order of the tests (CombReloc or NoCombReloc first, Origin
    last), no kind comes twice, every one carries the page size of a
    default-constructed option, and there are at least four and at most
    fifteen of them.  The sequence depends on the mask only. *)
Theorem setZOption_order (pOptions : Z) (st : State) (i : MCLDInfo) :
  mLDInfo (this st) = Some i ->
  exists (st' : State) (i' : MCLDInfo),
    setZOption pOptions st = Some (tt, st')
    /\ mLDInfo (this st') = Some i'
    /\ zOptions (options i') = zOptions (options i) ++ zoptions_for pOptions
    /\ ZOption.kind <$> zoptions_for pOptions `sublist_of` zOrder
    /\ NoDup (ZOption.kind <$> zoptions_for pOptions)
    /\ Forall (fun o => ZOption.pageSize o = ZOption.pageSize ZOption_ctor)
              (zoptions_for pOptions)
    /\ (4 <= length (zoptions_for pOptions) <= 15)%nat.
Proof.
  intros Hi. rewrite (setZOption_run pOptions st i Hi).
  eexists; eexists. split; [reflexivity |].
  split; [apply (appendZ_ldInfo _ st i Hi) |].
  split; [reflexivity |].
  assert (Hkinds : ZOption.kind <$> zoptions_for pOptions
                   = flat_map (step_kinds pOptions) steps).
  { unfold zoptions_for. rewrite <- list_fmap_compose.
    apply list_fmap_id. }
  assert (Hsub : ZOption.kind <$> zoptions_for pOptions `sublist_of` zOrder).
  { rewrite Hkinds. apply (step_kinds_sublist pOptions steps). }
  split; [exact Hsub |].
  split.
  { apply (sublist_NoDup _ zOrder); [| exact Hsub].
    unfold zOrder.
    repeat (apply NoDup_cons_2;
            [rewrite ?elem_of_cons, ?elem_of_nil;
             intuition discriminate |]).
    apply NoDup_nil_2. }
  split.
  { unfold zoptions_for. apply Forall_fmap, Forall_forall. now intros k _. }
  unfold zoptions_for. rewrite length_map.
  apply (step_kinds_length pOptions steps).
Qed.

End WithHeaders.

(** *** The rename table over several calls *)

(** Compare two tables built by inserts, key by key. *)
Ltac table_eq :=
  let k := fresh "k" in
  apply map_eq; intros k; rewrite !lookup_insert;
  repeat case_decide; congruence.

Lemma real_inj (X Y : string) : real X = real Y -> X = Y.
Proof. apply (String.app_inj "__real_"). Qed.

(** No redirected name of [__real_X] is [X]. *)
Lemma redirected_real_neq (r : Rule) (X : string) :
  redirected r (real X) <> X.
Proof.
  intros Heq. apply (f_equal String.length) in Heq.
  destruct r; unfold redirected, real in Heq;
    rewrite !length_append in Heq; cbn in Heq; lia.
Qed.

(** An insert at another key changes no collision. *)
Lemma collisions_insert_ne (m : gmap string string)
    (k v symbol to_str from_real_str : string) :
  k <> symbol -> k <> from_real_str ->
  collisions (<[k := v]> m) symbol to_str from_real_str
  = collisions m symbol to_str from_real_str.
Proof.
  intros Hsymbol Hreal. unfold collisions.
  now rewrite !lookup_insert_ne by assumption.
Qed.

(** The table and the warnings of one registration, on a state written
    out. *)
Lemma register_run (r : Rule) (X : string) (c : LinkerConfig)
    (tr : list Effect) (i : MCLDInfo) :
  mLDInfo c = Some i ->
  register r X (mkState c tr)
  = Some (tt,
          mkState
            (set_mLDInfo
               (Some (with_renameMap
                        (fun m => <[real X := X]>
                                    (<[X := redirected r X]> m)) i)) c)
            (tr ++ collisions (renameMap (scripts i)) X (redirected r X)
                              (real X))).
Proof.
  intros Hi. rewrite register_add_rename.
  now rewrite (add_rename_run X (redirected r X) (mkState c tr) i Hi).
Qed.

(** X10: registering a symbol again.  After a rename was registered for
    [X] by either rule, a second registration for [X], by either rule,
    returns and leaves the table exactly as that registration alone would
    have left the original table; and it raises exactly two warnings, one
    for [X] and its new name and one for [X] and [__real_X]. *)
Theorem register_again (r1 r2 : Rule) (X : string) (st : State)
    (i : MCLDInfo) :
  mLDInfo (this st) = Some i ->
  exists st1 st2 : State,
    register r1 X st = Some (tt, st1)
    /\ register r2 X st1 = Some (tt, st2)
    /\ table_after (Some (tt, st2)) = table_after (register r2 X st)
    /\ trace st2
       = trace st1 ++ [Warning rewrap [X; redirected r2 X];
                       Warning rewrap [X; real X]].
Proof.
  destruct st as [c tr]. cbn [this]. intros Hi.
  pose proof (real_neq X) as Hneq.
  rewrite (register_run r1 X c tr i Hi), (register_run r2 X c tr i Hi).
  eexists; eexists. split; [reflexivity |].
  erewrite register_run by (destruct c; reflexivity).
  split; [reflexivity |]. destruct c, i as [o [m]]. cbn. split.
  - f_equal. table_eq.
  - unfold collisions. rewrite lookup_insert_eq.
    rewrite lookup_insert_ne by (now apply not_eq_sym).
    now rewrite lookup_insert_eq.
Qed.

(** X11: registrations for unrelated symbols commute.  When [X] and [Y]
    differ and neither is the [__real_] name of the other, registering a
    rename for [X] and then one for [Y] leaves the same configuration as
    the other order, and raises the same warnings, in the other order. *)
Theorem register_commutes (r1 r2 : Rule) (X Y : string) (st : State)
    (i : MCLDInfo) :
  mLDInfo (this st) = Some i ->
  X <> Y -> X <> real Y -> Y <> real X ->
  exists sxy syx : State,
    (register r1 X;; register r2 Y) st = Some (tt, sxy)
    /\ (register r2 Y;; register r1 X) st = Some (tt, syx)
    /\ this sxy = this syx
    /\ trace sxy ≡ₚ trace syx.
Proof.
  destruct st as [c tr]. cbn [this]. intros Hi HXY HXrY HYrX.
  pose proof (real_neq X) as HX. pose proof (real_neq Y) as HY.
  assert (Hreal : real X <> real Y) by (intros Heq; now apply real_inj in Heq).
  rewrite (bind_Some _ _ _ _ _ (register_run r1 X c tr i Hi)).
  rewrite (bind_Some _ _ _ _ _ (register_run r2 Y c tr i Hi)).
  erewrite !register_run by (destruct c; reflexivity).
  eexists; eexists. split; [reflexivity |]. split; [reflexivity |].
  destruct c, i as [o [m]]. cbn. split.
  - unfold set_mLDInfo, with_renameMap. cbn.
    match goal with
    | |- ?l = ?r =>
        match l with
        | context [mkScriptOptions ?a] =>
            match r with
            | context [mkScriptOptions ?b] => replace a with b by table_eq
            end
        end
    end.
    reflexivity.
  - rewrite !collisions_insert_ne by (try assumption; now apply not_eq_sym).
    rewrite <- !app_assoc. apply Permutation_app; [reflexivity |].
    apply Permutation_app_comm.
Qed.

(** X12: wrapping a [__real_] name breaks the rule before it.  After a
    rename was registered for [X], registering one for [__real_X] returns
    and keeps [X] renamed as before, but [__real_X] is then renamed to its
    own new name and no longer to [X]; the call warns about that entry. *)
Theorem register_real_name_overrides (r1 r2 : Rule) (X : string)
    (st : State) (i : MCLDInfo) :
  mLDInfo (this st) = Some i ->
  exists st' : State,
    (register r1 X;; register r2 (real X)) st = Some (tt, st')
    /\ renamed_after X (Some (tt, st')) = Some (redirected r1 X)
    /\ renamed_after (real X) (Some (tt, st'))
       = Some (redirected r2 (real X))
    /\ renamed_after (real X) (Some (tt, st')) <> Some X
    /\ renamed_after (real (real X)) (Some (tt, st')) = Some (real X)
    /\ Warning rewrap [real X; redirected r2 (real X)] ∈ trace st'.
Proof.
  destruct st as [c tr]. cbn [this]. intros Hi.
  pose proof (real_neq X) as HX. pose proof (real_neq (real X)) as HrX.
  pose proof (redirected_real_neq r2 X) as Hredirected.
  assert (HXrr : X <> real (real X)).
  { intros Heq. apply (f_equal String.length) in Heq.
    unfold real in Heq. rewrite !length_append in Heq. cbn in Heq. lia. }
  rewrite (bind_Some _ _ _ _ _ (register_run r1 X c tr i Hi)).
  erewrite register_run by (destruct c; reflexivity).
  eexists. split; [reflexivity |].
  destruct c, i as [o [m]]. unfold renamed_after. cbn.
  assert (Hlookup :
            <[real (real X) := real X]>
              (<[real X := redirected r2 (real X)]>
                 (<[real X := X]> (<[X := redirected r1 X]> m)))
            !! real X = Some (redirected r2 (real X))).
  { rewrite lookup_insert_ne by (now apply not_eq_sym).
    apply lookup_insert_eq. }
  repeat split.
  - rewrite !lookup_insert_ne by (now apply not_eq_sym).
    apply lookup_insert_eq.
  - exact Hlookup.
  - rewrite Hlookup. congruence.
  - apply lookup_insert_eq.
  - unfold collisions. rewrite lookup_insert_eq.
    rewrite !elem_of_app. right. left. apply list_elem_of_singleton.
    reflexivity.
Qed.

(** X13: every registration accounts for its two keys.  A registration
    for [X] returns, removes no key of the table and adds at most [X] and
    [__real_X]; and for each of these two keys it either adds the key or
    raises a warning, never both and never neither: the number of keys it
    adds and the number of warnings it raises sum to two. *)
Theorem register_accounts (r : Rule) (X : string) (st : State)
    (i : MCLDInfo) :
  mLDInfo (this st) = Some i ->
  exists (st' : State) (i' : MCLDInfo) (added : list Effect),
    register r X st = Some (tt, st')
    /\ mLDInfo (this st') = Some i'
    /\ trace st' = trace st ++ added
    /\ dom (renameMap (scripts i'))
       = dom (renameMap (scripts i)) ∪ {[X; real X]}
    /\ (size (renameMap (scripts i')) + length added
        = size (renameMap (scripts i)) + 2)%nat.
Proof.
  destruct st as [c tr]. cbn [this]. intros Hi.
  pose proof (real_neq X) as HX.
  rewrite (register_run r X c tr i Hi).
  eexists; eexists; eexists. split; [reflexivity |].
  split; [destruct c; reflexivity |]. split; [reflexivity |].
  destruct i as [o [m]]. cbn. split.
  - rewrite !dom_insert_L. apply set_eq. intros k.
    rewrite !elem_of_union, !elem_of_singleton. tauto.
  - unfold collisions. rewrite !map_size_insert.
    rewrite lookup_insert_ne by exact HX.
    destruct (m !! X), (m !! real X); cbn; lia.
Qed.

(** *** Search directories over several calls *)

Section WithFileSystem.
Context `{McldLibrary}.

(** X14: a search directory is re-rooted under the sysroot in force when
    it is added.  [setSysRoot(R)] followed by [addSearchDir(P)] tests and
    adds the directory of [P] under [R]; in the other order the directory
    is tested and added under the sysroot the configuration had, and the
    later [setSysRoot(R)] leaves the directories already added as they
    are.  Both orders return and leave [R] as the sysroot. *)
Theorem addSearchDir_uses_sysroot_in_force (R P : string) (st : State)
    (i : MCLDInfo) :
  mLDInfo (this st) = Some i ->
  let found (sd : MCLDDirectory) : list MCLDDirectory :=
    if fs_exists (path sd) && fs_is_directory (path sd) then [sd] else [] in
  exists (s1 s2 : State) (i1 i2 : MCLDInfo),
    (setSysRoot R;; addSearchDir P) st = Some (tt, s1)
    /\ (addSearchDir P;; setSysRoot R) st = Some (tt, s2)
    /\ mLDInfo (this s1) = Some i1
    /\ mLDInfo (this s2) = Some i2
    /\ sysroot (options i1) = R
    /\ sysroot (options i2) = R
    /\ directories (options i1)
       = directories (options i) ++ found (searchDir P R)
    /\ directories (options i2)
       = directories (options i)
         ++ found (searchDir P (sysroot (options i))).
Proof.
  destruct st as [[tri sh so tg ld li pr] tr]. cbn. intros ->.
  unfold setSysRoot, addSearchDir, searchDir, warning, modifyLDInfo, ldInfo.
  run_M.
  destruct (isInSysroot (MCLDDirectory_ctor P)); cbn;
    repeat match goal with
           | |- context [fs_exists ?q && fs_is_directory ?q] =>
               destruct (fs_exists q && fs_is_directory q) eqn:?
           end;
    cbn; eexists; eexists; eexists; eexists;
    repeat split; cbn; rewrite ?app_nil_r; reflexivity.
Qed.

(** X15: the search directories keep no memory of earlier calls.
    [addSearchDir(P)] twice in a row returns; when the directory of [P]
    passes the test it stands twice at the end of the search directories,
    and nothing is reported; when it fails the test the search directories
    are as before and the same warning is raised twice. *)
Theorem addSearchDir_twice (P : string) (st : State) (i : MCLDInfo) :
  mLDInfo (this st) = Some i ->
  let sd := searchDir P (sysroot (options i)) in
  exists (st' : State) (i' : MCLDInfo),
    (addSearchDir P;; addSearchDir P) st = Some (tt, st')
    /\ mLDInfo (this st') = Some i'
    /\ (fs_exists (path sd) && fs_is_directory (path sd) = true ->
        directories (options i') = directories (options i) ++ [sd; sd]
        /\ trace st' = trace st)
    /\ (fs_exists (path sd) && fs_is_directory (path sd) = false ->
        directories (options i') = directories (options i)
        /\ trace st'
           = trace st ++ [Warning warn_cannot_open_search_dir [name sd];
                          Warning warn_cannot_open_search_dir [name sd]]).
Proof.
  destruct st as [[tri sh so tg ld li pr] tr]. cbn. intros ->.
  unfold addSearchDir, searchDir, warning, modifyLDInfo, ldInfo.
  run_M.
  destruct (isInSysroot (MCLDDirectory_ctor P)); cbn;
    match goal with
    | |- context [fs_exists ?q && fs_is_directory ?q] =>
        destruct (fs_exists q && fs_is_directory q) eqn:Htest
    end;
    cbn; rewrite ?Htest; cbn; eexists; eexists;
    (split; [reflexivity |]); (split; [reflexivity |]);
    split; intros Hcase; try discriminate Hcase;
    rewrite <- ?app_assoc; repeat split;
    cbn; rewrite <- ?app_assoc; reflexivity.
Qed.

End WithFileSystem.

(** *** The theorems above in the small world of [Sample] *)

Lemma Sample_usable (errors : N) : usable (Sample.config errors).
Proof. split; eexists; reflexivity. Qed.

Lemma ctor_establishes_witness :
  (@lookupTarget Sample.library Sample.triple).1 <> NULL
  /\ exists st : State,
       @LinkerConfig_ctor Sample.library Sample.triple [] = Some (tt, st)
       /\ usable (this st)
       /\ mTarget (this st) = 4096
       /\ trace st = [InitializeDiagnosticEngine].
Proof.
  assert (Hsupported :
            (@lookupTarget Sample.library Sample.triple).1 <> NULL)
    by (vm_compute; discriminate).
  split; [exact Hsupported |].
  destruct (@ctor_establishes Sample.library Sample.triple [] Hsupported)
    as (st & Hrun & Husable & Hthis & Htrace).
  exists st. split; [exact Hrun |]. split; [exact Husable |].
  split; [now rewrite Hthis | exact Htrace].
Defined.

Lemma ctor_ignores_failed_target_witness :
  (@lookupTarget Sample.library "mips").1 = NULL
  /\ @LinkerConfig_ctor Sample.library "mips" [] = None.
Proof.
  split; [reflexivity |].
  apply (@ctor_ignores_failed_target Sample.library "mips" []). reflexivity.
Defined.

Lemma calls_keep_usable_witness :
  let l := [CallSetShared true; CallAddWrap "f"; CallSetZOption 2;
            CallAddSearchDir "/nowhere"; CallAddWrap "f";
            CallSetSysRoot "/"; CallAddSearchDir "=/lib"] in
  usable (this (Sample.state 1))
  /\ exists (st' : State) (added : list Effect),
       @calls Sample.library Sample.bits l (Sample.state 1) = Some (tt, st')
       /\ usable (this st')
       /\ Forall is_Warning added
       /\ trace st' = [] ++ added
       /\ is_Some (LinkerConfig_dtor st').
Proof.
  intros l. split; [apply Sample_usable |].
  destruct (@calls_keep_usable Sample.library Sample.bits l (Sample.state 1)
              (Sample_usable 1))
    as (st' & added & Hrun & Husable & _ & Htrace & Hwarn & Hdtor).
  exists st', added. repeat split; try assumption; apply Husable.
Defined.

Lemma dtor_releases_each_once_witness :
  mDiagPrinter (this (Sample.state 0)) = Some (mkTextDiagnosticPrinter 0)
  /\ exists added : list Effect,
       LinkerConfig_dtor (Sample.state 0)
       = Some (tt, mkState (Sample.config 0) ([] ++ added))
       /\ NoDup added
       /\ last added = Some (Delete DiagPrinter)
       /\ Delete LDInfo ∈ added.
Proof.
  split; [reflexivity |].
  destruct (dtor_releases_each_once (Sample.state 0)
              (mkTextDiagnosticPrinter 0) eq_refl)
    as (added & Hrun & Hnodup & Hlast & Hinfo & _).
  exists added. repeat split; try assumption.
  apply Hinfo. eexists. reflexivity.
Defined.

Lemma setZOption_order_witness :
  mLDInfo (this (Sample.state 0)) = Some Sample.info
  /\ exists (st' : State) (i' : MCLDInfo),
       @setZOption Sample.library Sample.bits 4097 (Sample.state 0)
       = Some (tt, st')
       /\ mLDInfo (this st') = Some i'
       /\ zOptions (options i')
          = [] ++ @zoptions_for Sample.library Sample.bits 4097
       /\ ZOption.kind <$> @zoptions_for Sample.library Sample.bits 4097
          = [ZOption.CombReloc; ZOption.NoExecStack; ZOption.Relro;
             ZOption.Now].
Proof.
  split; [reflexivity |].
  destruct (@setZOption_order Sample.library Sample.bits 4097
              (Sample.state 0) Sample.info eq_refl)
    as (st' & i' & Hrun & Hinfo & Hadded & _).
  exists st', i'. repeat split; assumption.
Defined.

Lemma register_again_witness :
  mLDInfo (this (Sample.state 0)) = Some Sample.info
  /\ exists st1 st2 : State,
       addWrap "f" (Sample.state 0) = Some (tt, st1)
       /\ addPortable "f" st1 = Some (tt, st2)
       /\ table_after (Some (tt, st2))
          = table_after (addPortable "f" (Sample.state 0))
       /\ trace st2 = trace st1 ++ [Warning rewrap ["f"; "f_portable"];
                                    Warning rewrap ["f"; "__real_f"]].
Proof.
  split; [reflexivity |].
  apply (register_again Wrap Portable "f" (Sample.state 0) Sample.info).
  reflexivity.
Defined.

Lemma register_commutes_witness :
  (mLDInfo (this (Sample.state 0)) = Some Sample.info
   /\ "f" <> "g" /\ "f" <> real "g" /\ "g" <> real "f")
  /\ exists sxy syx : State,
       (addWrap "f" ≫= fun _ => addPortable "g") (Sample.state 0)
       = Some (tt, sxy)
       /\ (addPortable "g" ≫= fun _ => addWrap "f") (Sample.state 0)
          = Some (tt, syx)
       /\ this sxy = this syx.
Proof.
  assert (Hfg : "f" <> "g") by discriminate.
  assert (Hfrg : "f" <> real "g") by discriminate.
  assert (Hgrf : "g" <> real "f") by discriminate.
  split; [repeat split; assumption |].
  destruct (register_commutes Wrap Portable "f" "g" (Sample.state 0)
              Sample.info eq_refl Hfg Hfrg Hgrf)
    as (sxy & syx & Hxy & Hyx & Hthis & _).
  exists sxy, syx. repeat split; assumption.
Defined.

Lemma register_real_name_overrides_witness :
  mLDInfo (this (Sample.state 0)) = Some Sample.info
  /\ exists st' : State,
       (addWrap "f" ≫= fun _ => addWrap "__real_f") (Sample.state 0)
       = Some (tt, st')
       /\ renamed_after "__real_f" (Some (tt, st'))
          = Some "__wrap___real_f".
Proof.
  split; [reflexivity |].
  destruct (register_real_name_overrides Wrap Wrap "f" (Sample.state 0)
              Sample.info eq_refl)
    as (st' & Hrun & _ & Hreal & _).
  exists st'. split; assumption.
Defined.

Lemma register_accounts_witness :
  mLDInfo (this Sample.renamed) = Some Sample.renamed_info
  /\ exists (st' : State) (i' : MCLDInfo) (added : list Effect),
       addWrap "f" Sample.renamed = Some (tt, st')
       /\ mLDInfo (this st') = Some i'
       /\ trace st' = [] ++ added
       /\ (size (renameMap (scripts i')) + length added
           = size (renameMap (scripts Sample.renamed_info)) + 2)%nat.
Proof.
  split; [reflexivity |].
  destruct (register_accounts Wrap "f" Sample.renamed Sample.renamed_info
              eq_refl)
    as (st' & i' & added & Hrun & Hinfo & Htrace & _ & Hsize).
  exists st', i', added. repeat split; assumption.
Defined.

Lemma addSearchDir_uses_sysroot_in_force_witness :
  mLDInfo (this (Sample.state 0)) = Some Sample.info
  /\ exists (s1 s2 : State) (i1 i2 : MCLDInfo),
       (setSysRoot "" ≫= fun _ => @addSearchDir Sample.library "=/lib")
         (Sample.state 0) = Some (tt, s1)
       /\ (@addSearchDir Sample.library "=/lib" ≫= fun _ => setSysRoot "")
            (Sample.state 0) = Some (tt, s2)
       /\ mLDInfo (this s1) = Some i1
       /\ mLDInfo (this s2) = Some i2
       /\ directories (options i1) = [mkMCLDDirectory "=/lib" "/lib" true]
       /\ directories (options i2)
          = [mkMCLDDirectory "=/lib" "/sdk/lib" true].
Proof.
  split; [reflexivity |].
  destruct (@addSearchDir_uses_sysroot_in_force Sample.library "" "=/lib"
              (Sample.state 0) Sample.info eq_refl)
    as (s1 & s2 & i1 & i2 & Hrun1 & Hrun2 & Hi1 & Hi2 & _ & _ & Hd1 & Hd2).
  exists s1, s2, i1, i2. repeat split; assumption.
Defined.

Lemma addSearchDir_twice_witness :
  mLDInfo (this (Sample.state 0)) = Some Sample.info
  /\ exists (st' : State) (i' : MCLDInfo),
       (@addSearchDir Sample.library "/lib"
          ≫= fun _ => @addSearchDir Sample.library "/lib") (Sample.state 0)
       = Some (tt, st')
       /\ mLDInfo (this st') = Some i'
       /\ directories (options i')
          = [mkMCLDDirectory "/lib" "/lib" false;
             mkMCLDDirectory "/lib" "/lib" false].
Proof.
  split; [reflexivity |].
  destruct (@addSearchDir_twice Sample.library "/lib" (Sample.state 0)
              Sample.info eq_refl)
    as (st' & i' & Hrun & Hinfo & Hfound & _).
  exists st', i'. split; [exact Hrun |]. split; [exact Hinfo |].
  apply Hfound. reflexivity.
Defined.

End LinkerConfigMore.
